(** * The authentication service of the backend (modules/auth/auth.service.ts)

    A shallow embedding of [AuthService] over the tables of
    prisma/generated/schema.prisma that the service touches.  Every method
    is an action of a state-and-exception monad over a [World]: the
    database rows, the Redis keys, the clock and the chronological trace
    of the effects a call performs (mails handed to the email service,
    Redis writes, database writes, cookies put on the response).  An
    exception leaves the effects performed before it in place, as a
    rejected promise does. *)

From Stdlib Require Import Ascii.
From stdpp Require Import base strings list gmap pretty.

Local Open Scope string_scope.
Local Open Scope Z_scope.

(** ** Exceptions

    The four NestJS HTTP exceptions the service throws, and [InternalError]
    for everything a collaborator may throw that is none of them (a Prisma
    client error, a jsonwebtoken error, a missing configuration key). *)
Inductive Exception :=
| ConflictException (message : string)
| ForbiddenException (message : string)
| NotFoundException (message : string)
| UnauthorizedException (message : string)
| InternalError (message : string).

Definition isUnauthorized (e : Exception) : bool :=
  match e with
  | UnauthorizedException _ => true
  | _ => false
  end.

(** ** Schema (prisma/generated/schema.prisma) *)

Inductive TypeCode := VERIFICATION | RESETPASSWORD | REACTIVE | RECOVERY.
Inductive Gender := MALE | FEMALE | OTHER.
Inductive StatusAccount := ACTIVE | DISABLE | RESTRICTED | CHECKPOINT | BANNED.
Inductive Scope := EVERYONE | FRIENDS_ONLY | PRIVATE.

#[global] Instance TypeCode_eq_dec : EqDecision TypeCode.
Proof. solve_decision. Defined.

Module Email.
Record t := mk { id : string; value : string; scope : Scope }.
End Email.

(** [User.primaryEmail] is a required one-to-one relation (the foreign key
    [primaryEmailId] is unique): the row of the primary email is kept inside
    the user it belongs to, which is what [include: { primaryEmail: true }]
    returns.  The optional columns the service never writes stay at their
    null default and are left out. *)
Module User.
Record t := mk {
  id : string;
  profileId : string;
  createdAt : Z;
  status : StatusAccount;
  primaryEmail : Email.t;
  hashedPassword : string;
  displayName : string;
  gender : Gender;
  birthday : Z
}.

Definition with_hashedPassword (h : string) (u : t) : t :=
  mk (id u) (profileId u) (createdAt u) (status u) (primaryEmail u) h
     (displayName u) (gender u) (birthday u).
End User.

Module Code.
Record t := mk {
  tokens : list string;
  expiresAt : option Z;
  type : TypeCode;
  userId : string;
  createdAt : Z;
  updatedAt : option Z
}.
End Code.

Module Session.
Record t := mk {
  id : string;
  expiresAt : option Z;
  createdAt : Z;
  lastLoginAt : option Z;
  refreshTokenHashed : option string;
  deviceName : option string;
  userAgent : option string;
  ipAddress : option string;
  userId : string;
  revoked : bool
}.
End Session.

(** The tables, rows in storage order: [findFirst] without [orderBy]
    returns the first row that matches. *)
Record Db := mkDb {
  users : list User.t;
  codes : list Code.t;
  sessions : list Session.t
}.

(** ** The world a request runs in *)

Inductive Mail :=
| ResetPasswordAccount (email code : string)
| NotificationResetPassword (email : string)
| DetectOtherDevice (email ip userAgent deviceName : string).

Inductive Event :=
| EmailSent (m : Mail)
| RedisSet (key value : string) (ttl : Z)
| DbWrite (operation : string)
| SetCookie (name value : string) (maxAge : Z) (httpOnly : bool)
| ClearCookie (name : string).

Record World := mkWorld {
  db : Db;
  redis : gmap string (string * Z);
  config : gmap string string;
  clock : Z;
  storeDown : bool;
  trace : list Event
}.

Definition set_db (d : Db) (w : World) : World :=
  mkWorld d (redis w) (config w) (clock w) (storeDown w) (trace w).
Definition set_redis (r : gmap string (string * Z)) (w : World) : World :=
  mkWorld (db w) r (config w) (clock w) (storeDown w) (trace w).
Definition log (e : Event) (w : World) : World :=
  mkWorld (db w) (redis w) (config w) (clock w) (storeDown w) (trace w ++ [e]).

(** The world [ms] milliseconds later, nothing else having happened. *)
Definition advance (ms : Z) (w : World) : World :=
  mkWorld (db w) (redis w) (config w) (clock w + ms) (storeDown w) (trace w).

(** ** The monad of service calls *)

Definition M (A : Type) : Type := World → World * (Exception + A).

Definition ret {A} (a : A) : M A := λ w, (w, inr a).
Definition throw {A} (e : Exception) : M A := λ w, (w, inl e).
Definition bind {A B} (m : M A) (k : A → M B) : M B :=
  λ w, match m w with
       | (w', inr a) => k a w'
       | (w', inl e) => (w', inl e)
       end.
Definition try_catch {A} (m : M A) (handler : Exception → M A) : M A :=
  λ w, match m w with
       | (w', inl e) => handler e w'
       | r => r
       end.

Notation "x <- m ;; k" := (bind m (λ x, k))
  (at level 100, m at next level, right associativity).
Notation "m ;;; k" := (bind m (λ _, k))
  (at level 100, right associativity).

Definition emit (e : Event) : M unit := λ w, (log e w, inr tt).

(** [Date.now()], and the [now()] default of the timestamp columns. *)
Definition Date_now : M Z := λ w, (w, inr (clock w)).

(** A Prisma query.  When the store cannot be reached the call rejects
    with a client error. *)
Definition prisma_read {A} (q : Db → A) : M A :=
  λ w, if storeDown w then (w, inl (InternalError "PrismaClientKnownRequestError"))
       else (w, inr (q (db w))).

(** A Prisma write: one statement, atomic, which either fails and leaves
    the tables as they are or commits and is recorded in the trace. *)
Definition prisma_write {A} (operation : string) (f : Db → Exception + (Db * A)) : M A :=
  λ w, if storeDown w then (w, inl (InternalError "PrismaClientKnownRequestError"))
       else match f (db w) with
            | inl e => (w, inl e)
            | inr (d, a) => (log (DbWrite operation) (set_db d w), inr a)
            end.

Definition configService_getOrThrow (key : string) : M string :=
  λ w, match config w !! key with
       | Some v => (w, inr v)
       | None => (w, inl (InternalError "Configuration key does not exist"))
       end.

(** ** JavaScript helpers *)

(** Truthiness of a [string | undefined]: [undefined] and the empty string
    are falsy. *)
Definition truthy (s : option string) : option string :=
  match s with
  | Some "" => None
  | o => o
  end.

(** [a || b] on such values. *)
Definition js_or (a b : option string) : option string :=
  match truthy a with
  | Some x => Some x
  | None => b
  end.

(** [s.split(',')[0]] *)
Fixpoint split_comma_0 (s : string) : string :=
  match s with
  | EmptyString => EmptyString
  | String c rest =>
      if bool_decide (c = ","%char) then EmptyString
      else String c (split_comma_0 rest)
  end.

(** [String(n)] of an integer. *)
Definition String_of (n : Z) : string := pretty n.

(** The parts of the express request and of its user the service reads. *)
Record Request := mkRequest {
  header_x_forwarded_for : option string;
  header_user_agent : option string;
  socket_remoteAddress : option string;
  cookies_session_id : option string;
  user_id : option string
}.

(** ** Collaborators outside the service

    The libraries and injected services whose code is not part of
    auth.service.ts, taken as they are called. *)
Record JwtPayload := mkJwtPayload { sub : option string }.
Record Tokens := mkTokens { accessToken : string; refreshToken : string }.

Class Collaborators := {
  (** [hash(plain, options)] of argon2, a function of the salt it draws. *)
  argon2_hash : string → string → string;
  (** [verify(hashed, plain)] of argon2. *)
  argon2_verify : string → string → bool;
  (** [new UAParser(ua).getBrowser().name] and [.getOS().name]. *)
  UAParser_browser_name : string → option string;
  UAParser_os_name : string → option string;
  (** [jwtService.verifyAsync(token, { secret })]: the payload, or [None]
      when the signature or the expiry check rejects the token. *)
  jwtService_verifyAsync : string → string → option JwtPayload;
  (** [tokenService.generateTokens(userId, email)]. *)
  tokenService_generateTokens : string → string → Tokens
}.

(** What the run time draws during one call: the argon2 salt, the
    [uuid()] defaults of the rows it creates, the Snowflake identifier and
    the number [tokenService.generateCode()] returns. *)
Record Entropy := mkEntropy {
  salt : string;
  uuid_user : string;
  uuid_email : string;
  uuid_session : string;
  snowflake : string;
  generatedCode : Z
}.

(** ** Prisma queries on the tables *)

Definition user_findUnique (id : string) (d : Db) : option User.t :=
  List.find (λ u, bool_decide (User.id u = id)) (users d).

(** [user.findFirst({ where: { primaryEmail: { value: email } } })] *)
Definition user_findFirst_primaryEmail (email : string) (d : Db) : option User.t :=
  List.find (λ u, bool_decide (Email.value (User.primaryEmail u) = email)) (users d).

(** [user.create]: [id], [profileId] and [primaryEmailId] are unique. *)
Definition user_create (u : User.t) (d : Db) : Exception + (Db * User.t) :=
  if existsb (λ v, bool_decide (User.id v = User.id u)
                   || bool_decide (User.profileId v = User.profileId u)
                   || bool_decide (Email.id (User.primaryEmail v) = Email.id (User.primaryEmail u)))
             (users d)
  then inl (InternalError "Unique constraint failed")
  else inr (mkDb (users d ++ [u]) (codes d) (sessions d), u).

Definition code_has_key (type : TypeCode) (userId : string) (c : Code.t) : bool :=
  bool_decide (Code.type c = type) && bool_decide (Code.userId c = userId).

(** The [users] table once [data: { hashedPassword }] is written to the row
    with the given id. *)
Definition users_with_password (id hashedPassword : string) (d : Db) : list User.t :=
  map (λ v, if bool_decide (User.id v = id)
            then User.with_hashedPassword hashedPassword v else v) (users d).

(** [user.update({ where: { id }, data: { hashedPassword, code: { delete:
    { id: { type, userId } } } } })], the nested delete being optional.
    The update and the nested delete are one statement: when the user or the
    row to delete is not there, Prisma rejects and nothing is written. *)
Definition user_update (id hashedPassword : string)
    (delete_code : option (TypeCode * string)) (d : Db) : Exception + (Db * User.t) :=
  match user_findUnique id d with
  | None => inl (InternalError "Record to update not found")
  | Some u =>
      let u' := User.with_hashedPassword hashedPassword u in
      let users' := users_with_password id hashedPassword d in
      match delete_code with
      | None => inr (mkDb users' (codes d) (sessions d), u')
      | Some (type, userId) =>
          if existsb (λ c, code_has_key type userId c && bool_decide (Code.userId c = id)) (codes d)
          then inr (mkDb users'
                         (List.filter (λ c, negb (code_has_key type userId c)) (codes d))
                         (sessions d), u')
          else inl (InternalError "Record to delete does not exist")
      end
  end.

(** [code.findFirst({ where: { tokens: { has: code } } })] *)
Definition code_findFirst_has (code : string) (d : Db) : option Code.t :=
  List.find (λ c, bool_decide (code ∈ Code.tokens c)) (codes d).

(** [code.findFirst({ where: { userId, type } })] *)
Definition code_findFirst_key (type : TypeCode) (userId : string) (d : Db) : option Code.t :=
  List.find (code_has_key type userId) (codes d).

(** [code.upsert] on the compound key [(userId, type)]: an existing row
    keeps its [createdAt]; a new one takes the [now()] default. *)
Definition code_upsert (type : TypeCode) (userId : string) (tokens : list string)
    (expiresAt now : Z) (d : Db) : Exception + (Db * unit) :=
  if existsb (code_has_key type userId) (codes d)
  then inr (mkDb (users d)
                 (map (λ c, if code_has_key type userId c
                            then Code.mk tokens (Some expiresAt) type userId
                                         (Code.createdAt c) (Some now)
                            else c) (codes d))
                 (sessions d), tt)
  else inr (mkDb (users d)
                 (codes d ++ [Code.mk tokens (Some expiresAt) type userId now (Some now)])
                 (sessions d), tt).

(** A [where] on [Session]; a filter whose value is [undefined] is no
    filter. *)
Definition session_where (id userId : option string) (s : Session.t) : bool :=
  match id with
  | Some i => bool_decide (Session.id s = i)
  | None => true
  end
  && match userId with
     | Some u => bool_decide (Session.userId s = u)
     | None => true
     end.

Definition session_findFirst (id userId : option string) (d : Db) : option Session.t :=
  List.find (session_where id userId) (sessions d).

(** [session.findFirst({ where: { userId, revoked: false } })] *)
Definition session_findFirst_active (userId : string) (d : Db) : option Session.t :=
  List.find (λ s, bool_decide (Session.userId s = userId) && negb (Session.revoked s))
            (sessions d).

(** The first row of a list ordered by [createdAt] descending. *)
Definition newest (l : list Session.t) : option Session.t :=
  fold_left (λ best s,
               match best with
               | None => Some s
               | Some b => if (Session.createdAt b <? Session.createdAt s)%Z then Some s else Some b
               end) l None.

(** [session.findFirst({ where: { userId, deviceName, ipAddress: ip },
    orderBy: { createdAt: 'desc' } })] *)
Definition session_findFirst_device (userId ip deviceName : string) (d : Db) : option Session.t :=
  newest (List.filter (λ s, bool_decide (Session.userId s = userId)
                            && bool_decide (Session.deviceName s = Some deviceName)
                            && bool_decide (Session.ipAddress s = Some ip))
                      (sessions d)).

Definition revoke (s : Session.t) : Session.t :=
  Session.mk (Session.id s) (Session.expiresAt s) (Session.createdAt s)
             (Session.lastLoginAt s) None (Session.deviceName s)
             (Session.userAgent s) (Session.ipAddress s) (Session.userId s) true.

(** [session.updateMany({ where: { id, userId }, data: { refreshTokenHashed:
    null, revoked: true } })]; it succeeds on any number of rows. *)
Definition session_updateMany_revoke (id userId : option string) (d : Db)
    : Exception + (Db * unit) :=
  inr (mkDb (users d) (codes d)
            (map (λ s, if session_where id userId s then revoke s else s) (sessions d)), tt).

Definition session_create (s : Session.t) (d : Db) : Exception + (Db * Session.t) :=
  if existsb (λ r, bool_decide (Session.id r = Session.id s)
                   || bool_decide (Session.userId r = Session.userId s)) (sessions d)
  then inl (InternalError "Unique constraint failed")
  else inr (mkDb (users d) (codes d) (sessions d ++ [s]), s).

Definition session_refresh (refreshTokenHashed deviceName ipAddress userAgent : string)
    (now : Z) (s : Session.t) : Session.t :=
  Session.mk (Session.id s) (Session.expiresAt s) (Session.createdAt s) (Some now)
             (Some refreshTokenHashed) (Some deviceName) (Some userAgent) (Some ipAddress)
             (Session.userId s) (Session.revoked s).

Definition session_update (id refreshTokenHashed deviceName ipAddress userAgent : string)
    (now : Z) (d : Db) : Exception + (Db * Session.t) :=
  match session_findFirst (Some id) None d with
  | None => inl (InternalError "Record to update not found")
  | Some s =>
      inr (mkDb (users d) (codes d)
                (map (λ r, if bool_decide (Session.id r = id)
                           then session_refresh refreshTokenHashed deviceName ipAddress userAgent now r
                           else r) (sessions d)),
           session_refresh refreshTokenHashed deviceName ipAddress userAgent now s)
  end.

(** ** Data transfer objects and responses *)

Module RegisterUser.
Record t := mk {
  email : string;
  password : string;
  displayName : string;
  birthday : Z;
  gender : Gender
}.
End RegisterUser.

Module ChangePasswordDto.
Record t := mk { oldPassword : string; newPassword : string }.
End ChangePasswordDto.

Module ForgotPasswordDto.
Record t := mk { userId : string; token : string; newPassword : string; email : string }.
End ForgotPasswordDto.

Module LoginDto.
Record t := mk { email : string; password : string }.
End LoginDto.

(** [const { hashedPassword, ...userWithoutPassword } = user] *)
Module UserWithoutPassword.
Record t := mk {
  id : string;
  profileId : string;
  createdAt : Z;
  status : StatusAccount;
  primaryEmail : Email.t;
  displayName : string;
  gender : Gender;
  birthday : Z
}.

Definition of_user (u : User.t) : t :=
  mk (User.id u) (User.profileId u) (User.createdAt u) (User.status u)
     (User.primaryEmail u) (User.displayName u) (User.gender u) (User.birthday u).
End UserWithoutPassword.

Record Response (A : Type) := mkResponse { message : string; data : A }.
Arguments mkResponse {A} _ _.
Arguments message {A} _.
Arguments data {A} _.

Definition MAXINUM_AVAILABLE_TIME : Z := 5 * 60000.
Definition MIN_TIME_TO_REQUEST : Z := 60000.

(** ** The service *)

Section AuthService.
Context `{Collaborators}.

(** *** Injected services whose sources are not part of the module *)

(** Modelled from the spec: the email notifier (email.service.ts is not
    among the sources).  Each call hands one mail to it, fire-and-forget;
    a failure to send is not this layer's to handle. *)
Definition emailService_sendResetPasswordAccount (email code : string) : M unit :=
  emit (EmailSent (ResetPasswordAccount email code)).
Definition emailService_sendNotificationResetPassword (email : string) : M unit :=
  emit (EmailSent (NotificationResetPassword email)).
Definition emailService_sendDetectOtherDevice (email ip userAgent deviceName : string) : M unit :=
  emit (EmailSent (DetectOtherDevice email ip userAgent deviceName)).

(** [redisService.set(key, value, ttl)] (redis.service.ts is not among the
    sources), taken as what its arguments name: the value is stored under
    the key with a time to live in seconds. *)
Definition redisService_set (key value : string) (ttl : Z) : M unit :=
  λ w, (log (RedisSet key value ttl) (set_redis (<[key := (value, ttl)]> (redis w)) w), inr tt).

(** Modelled from the spec: [usersService.findPrimaryUserByEmail]
    (users.service.ts is not among the sources), the account whose primary
    email is the given address, if there is one. *)
Definition usersService_findPrimaryUserByEmail (email : string) : M (option User.t) :=
  prisma_read (user_findFirst_primaryEmail email).

(** Modelled from the spec: [tokenService.storeRefreshToken]
    (token.service.ts is not among the sources).  The refresh token is
    hashed before it is persisted; when an existing session id is supplied
    that row is updated in place (device, IP and timestamps refreshed),
    otherwise a new [Session] row is created; the row is returned. *)
Definition tokenService_storeRefreshToken (userId refreshToken : string)
    (existingSessionId : option string) (deviceName ipAddress userAgent : string)
    (rnd : Entropy) : M Session.t :=
  now <- Date_now ;;
  let hashed := argon2_hash (salt rnd) refreshToken in
  match existingSessionId with
  | Some sid =>
      prisma_write "session.update"
        (session_update sid hashed deviceName ipAddress userAgent now)
  | None =>
      prisma_write "session.create"
        (session_create (Session.mk (uuid_session rnd) None now (Some now) (Some hashed)
                                    (Some deviceName) (Some userAgent) (Some ipAddress)
                                    userId false))
  end.

(** *** auth.service.ts *)

Definition hashing (rnd : Entropy) (plain : string) : string :=
  argon2_hash (salt rnd) plain.

Definition jwtService_verify (accessToken secret : string) : M JwtPayload :=
  match jwtService_verifyAsync accessToken secret with
  | Some payload => ret payload
  | None => throw (InternalError "JsonWebTokenError")
  end.

(** [user.findUnique({ where: { id } })]; Prisma rejects a unique [where]
    whose only field is [undefined]. *)
Definition prisma_user_findUnique (id : option string) : M (option User.t) :=
  match id with
  | Some i => prisma_read (user_findUnique i)
  | None => throw (InternalError "PrismaClientValidationError")
  end.

Definition validate (accessToken : string) : M User.t :=
  try_catch
    (secret <- configService_getOrThrow "JWT_SECRET" ;;
     payload <- jwtService_verify accessToken secret ;;
     user <- prisma_user_findUnique (sub payload) ;;
     match user with
     | None => throw (UnauthorizedException "User not found")
     | Some user =>
         activeSession <- prisma_read (session_findFirst_active (User.id user)) ;;
         match activeSession with
         | None => throw (UnauthorizedException "User session is revoked")
         | Some _ => ret user
         end
     end)
    (λ error,
       if isUnauthorized error then throw error
       else throw (UnauthorizedException "Invalid or expired access token")).

Definition extractIp (req : Request) : string :=
  default "" (js_or (js_or (split_comma_0 <$> header_x_forwarded_for req)
                           (socket_remoteAddress req))
                    (Some "")).

Definition getDeviceName (userAgent : string) : string :=
  let browser := default "Unknown browser" (truthy (UAParser_browser_name userAgent)) in
  let os := default "Unknown OS" (truthy (UAParser_os_name userAgent)) in
  browser ++ " on " ++ os.

Definition detectDevice (userId ip deviceName : string) : M (option Session.t) :=
  prisma_read (session_findFirst_device userId ip deviceName).

Definition registerUser (body : RegisterUser.t) (rnd : Entropy) : M (Response User.t) :=
  user <- usersService_findPrimaryUserByEmail (RegisterUser.email body) ;;
  match user with
  | Some _ => throw (ConflictException "This email has been registered")
  | None =>
      let hashedPassword := hashing rnd (RegisterUser.password body) in
      now <- Date_now ;;
      newUser <- prisma_write "user.create"
                   (user_create
                      (User.mk (uuid_user rnd) (snowflake rnd) now ACTIVE
                               (Email.mk (uuid_email rnd) (RegisterUser.email body) EVERYONE)
                               hashedPassword (RegisterUser.displayName body)
                               (RegisterUser.gender body) (RegisterUser.birthday body))) ;;
      ret (mkResponse "Register successful" newUser)
  end.

Definition MAX_TIME_SAVE : Z := 60 * 60 * 24 * 30.

Definition changePassword (data : ChangePasswordDto.t) (req : Request) (rnd : Entropy)
    : M (Response UserWithoutPassword.t) :=
  match truthy (user_id req) with
  | None => throw (UnauthorizedException "User ID is missing")
  | Some id =>
      user <- prisma_read (user_findUnique id) ;;
      match user with
      | None => throw (NotFoundException "User not found")
      | Some user =>
          if negb (argon2_verify (User.hashedPassword user) (ChangePasswordDto.oldPassword data))
          then throw (UnauthorizedException "Password is not matched")
          else
            redisService_set id (ChangePasswordDto.oldPassword data) MAX_TIME_SAVE ;;;
            let hashedNewPassword := hashing rnd (ChangePasswordDto.newPassword data) in
            newUser <- prisma_write "user.update" (user_update id hashedNewPassword None) ;;
            emailService_sendNotificationResetPassword
              (Email.value (User.primaryEmail newUser)) ;;;
            ret (mkResponse "Change Password successful"
                            (UserWithoutPassword.of_user newUser))
      end
  end.

(** The lookup returns one user, so [Array.isArray(exitingUser)] is false
    and [user] is [exitingUser]. *)
Definition recoveryAccount (email : string) (rnd : Entropy) : M string :=
  exitingUser <- usersService_findPrimaryUserByEmail email ;;
  match exitingUser with
  | None => throw (NotFoundException "User is not found")
  | Some user =>
      let token := generatedCode rnd in
      now <- Date_now ;;
      prisma_write "code.upsert"
        (code_upsert RECOVERY (User.id user) [String_of token]
                     (now + MAXINUM_AVAILABLE_TIME) now) ;;;
      emailService_sendResetPasswordAccount email (String_of token) ;;;
      ret "Send recovery email successful"
  end.

(** The two [Date.now()] of the tests read the same clock: it does not
    advance during a call.  The notification is not awaited; the mail is
    handed to the email service all the same. *)
Definition confirmRecoveryAccount (email code newPassword : string) (rnd : Entropy)
    : M string :=
  exitingUser <- prisma_read (code_findFirst_has code) ;;
  now <- Date_now ;;
  if match exitingUser with
     | Some row => (Code.createdAt row + MIN_TIME_TO_REQUEST >? now)%Z
     | None => false
     end
  then throw (ConflictException "Please wait 1 minutes before requesting again")
  else
    match exitingUser with
    | None => throw (UnauthorizedException "Code is not matched or expired")
    | Some row =>
        if negb (bool_decide (code ∈ Code.tokens row))
           || (Code.createdAt row + MAXINUM_AVAILABLE_TIME <? now)%Z
        then throw (UnauthorizedException "Code is not matched or expired")
        else
          prisma_write "user.update"
            (user_update (Code.userId row) (hashing rnd newPassword)
                         (Some (VERIFICATION, Code.userId row))) ;;;
          emailService_sendNotificationResetPassword email ;;;
          ret "Send notification recovery email successful"
    end.

Definition forgotPassword (email : string) (rnd : Entropy) : M string :=
  user <- prisma_read (user_findFirst_primaryEmail email) ;;
  match user with
  | None => throw (NotFoundException "Account is not exited")
  | Some user =>
      let token := generatedCode rnd in
      now <- Date_now ;;
      prisma_write "code.upsert"
        (code_upsert VERIFICATION (User.id user) [String_of token]
                     (now + MAXINUM_AVAILABLE_TIME) now) ;;;
      emailService_sendResetPasswordAccount email (String_of token) ;;;
      ret "Send req forgot successful"
  end.

Definition verifyTokenForgotPassword (data : ForgotPasswordDto.t) (rnd : Entropy)
    : M string :=
  code <- prisma_read (code_findFirst_key VERIFICATION (ForgotPasswordDto.userId data)) ;;
  match code with
  | None => throw (NotFoundException "Code is not available or expired")
  | Some code =>
      if negb (bool_decide (ForgotPasswordDto.token data ∈ Code.tokens code))
      then throw (ForbiddenException "Code does not matched")
      else
        prisma_write "user.update"
          (user_update (ForgotPasswordDto.userId data)
                       (hashing rnd (ForgotPasswordDto.newPassword data))
                       (Some (VERIFICATION, ForgotPasswordDto.userId data))) ;;;
        emailService_sendNotificationResetPassword (ForgotPasswordDto.email data) ;;;
        ret "Change password successful"
  end.

Definition createSession (userId : string) (req : Request) (rnd : Entropy)
    : M (Tokens * Session.t) :=
  user <- prisma_read (user_findUnique userId) ;;
  let ipAddress := extractIp req in
  let userAgent := default "Unknown" (truthy (header_user_agent req)) in
  let deviceName := getDeviceName userAgent in
  let tokens := tokenService_generateTokens userId
                  (match user with
                   | Some u => Email.value (User.primaryEmail u)
                   | None => "undefined"
                   end) in
  session <- tokenService_storeRefreshToken userId (refreshToken tokens)
               (cookies_session_id req) deviceName ipAddress userAgent rnd ;;
  emit (SetCookie "session_id" (Session.id session)
                  (10 * 365 * 24 * 60 * 60 * 1000) false) ;;;
  emit (SetCookie "refresh_token" (refreshToken tokens) (60 * 60 * 1000) true) ;;;
  emit (SetCookie "access_token" (accessToken tokens) (7 * 24 * 60 * 60 * 1000) true) ;;;
  ret (tokens, session).

Definition logout (req : Request) (sessionId : option string) : M string :=
  emit (ClearCookie "access_token") ;;;
  emit (ClearCookie "refresh_token") ;;;
  session <- prisma_read (session_findFirst sessionId None) ;;
  match truthy (js_or sessionId (cookies_session_id req)) with
  | None => throw (NotFoundException "Session ID is required for logout")
  | Some sid =>
      prisma_write "session.updateMany"
        (session_updateMany_revoke (Some sid) (Session.userId <$> session)) ;;;
      ret "Logout successful"
  end.

Definition login (data : LoginDto.t) (req : Request) (rnd : Entropy)
    : M (Response UserWithoutPassword.t) :=
  user <- prisma_read (user_findFirst_primaryEmail (LoginDto.email data)) ;;
  match user with
  | None => throw (NotFoundException "User not found")
  | Some user =>
      if negb (argon2_verify (User.hashedPassword user) (LoginDto.password data))
      then throw (UnauthorizedException "Password is not matched")
      else
        let ip := extractIp req in
        let userAgent := default "Unknown" (truthy (header_user_agent req)) in
        let deviceName := getDeviceName userAgent in
        isNew <- detectDevice (User.id user) ip deviceName ;;
        (match isNew with
         | Some _ => emailService_sendDetectOtherDevice
                       (Email.value (User.primaryEmail user)) ip userAgent deviceName
         | None => ret tt
         end) ;;;
        session <- createSession (User.id user) req rnd ;;
        ret (mkResponse "Login successful" (UserWithoutPassword.of_user user))
  end.
End AuthService.

(** ** A concrete deployment

    Stand-ins for the collaborators, to run the service on concrete
    requests. *)
Module Demo.
Definition firefox_ua : string := "Mozilla/5.0 (X11; Linux x86_64; rv:120.0) Gecko/20100101 Firefox/120.0".

#[export] Instance collaborators : Collaborators := {|
  argon2_hash := λ salt plain, "$argon2id$" ++ plain;
  argon2_verify := λ hashed plain, bool_decide (hashed = "$argon2id$" ++ plain);
  UAParser_browser_name := λ ua, if bool_decide (ua = firefox_ua) then Some "Firefox" else None;
  UAParser_os_name := λ ua, if bool_decide (ua = firefox_ua) then Some "Linux" else None;
  jwtService_verifyAsync := λ token secret,
    if bool_decide (secret = "s3cret") && String.prefix "jwt:" token
    then Some (mkJwtPayload (Some (String.substring 4 (String.length token - 4) token)))
    else None;
  tokenService_generateTokens := λ userId email,
    mkTokens ("jwt:" ++ userId) ("refresh:" ++ userId)
|}.

Definition alice : User.t :=
  User.mk "u-alice" "p-1" 1000 ACTIVE (Email.mk "e-alice" "a@x.com" EVERYONE)
          "$argon2id$pw1" "Alice" FEMALE 0.
Definition bob : User.t :=
  User.mk "u-bob" "p-2" 2000 ACTIVE (Email.mk "e-bob" "b@x.com" EVERYONE)
          "$argon2id$pw2" "Bob" MALE 0.

Definition session_of (id userId : string) (createdAt : Z) : Session.t :=
  Session.mk id None createdAt (Some createdAt) (Some "$argon2id$refresh") (Some "Firefox on Linux")
             (Some firefox_ua) (Some "10.0.0.7") userId false.

Definition world (d : Db) (clock : Z) : World :=
  mkWorld d ∅ {["JWT_SECRET" := "s3cret"]} clock false [].

Definition rnd : Entropy := mkEntropy "salt" "u-new" "e-new" "s-new" "p-new" 123456.

Definition browser_request : Request :=
  mkRequest None (Some firefox_ua) (Some "10.0.0.7") None None.

Definition code_row (type : TypeCode) (userId token : string) (createdAt : Z) : Code.t :=
  Code.mk [token] (Some (createdAt + MAXINUM_AVAILABLE_TIME)) type userId createdAt
          (Some createdAt).

(** Alice and Bob, and a recovery code [123456] issued to Alice at
    time 5000. *)
Definition recovering : Db :=
  mkDb [alice; bob] [code_row RECOVERY "u-alice" "123456" 5000] [].

(** The same, with a forgot-password code [777777] of Alice on file. *)
Definition recovering_verified : Db :=
  mkDb [alice; bob]
       [code_row RECOVERY "u-alice" "123456" 5000;
        code_row VERIFICATION "u-alice" "777777" 4000] [].

(** Alice and Bob registered, nothing else, at time 5000. *)
Definition registered : World := world (mkDb [alice; bob] [] []) 5000.

(** The same browser, holding the [session_id] cookie of an earlier visit. *)
Definition returning_request (session_id : string) : Request :=
  mkRequest None (Some firefox_ua) (Some "10.0.0.7") (Some session_id) None.

(** The same browser with the user [id] that the access-token guard puts on
    the request. *)
Definition authenticated_request (id : string) : Request :=
  mkRequest None (Some firefox_ua) (Some "10.0.0.7") None (Some id).

Definition carol_form : RegisterUser.t :=
  RegisterUser.mk "c@x.com" "pw3" "Carol" 0 OTHER.

(** Alice and Bob were both issued the recovery code [123456], Alice at
    time 5000 and Bob at time 400000; Alice's row comes first. *)
Definition same_code_twice : Db :=
  mkDb [alice; bob]
       [code_row RECOVERY "u-alice" "123456" 5000;
        code_row RECOVERY "u-bob" "123456" 400000] [].

(** Bob's old recovery code [123456] is also the forgot-password code that
    Alice was issued at time 300000; Alice's row comes first. *)
Definition same_code_live : Db :=
  mkDb [alice; bob]
       [code_row VERIFICATION "u-alice" "123456" 300000;
        code_row RECOVERY "u-bob" "123456" 5000] [].

(** Bob's recovery code comes first in the table; behind it, the
    forgot-password code [123456] of Alice, issued at time 5000. *)
Definition behind_another : Db :=
  mkDb [alice; bob]
       [code_row RECOVERY "u-bob" "999999" 1000;
        code_row VERIFICATION "u-alice" "123456" 5000] [].

(** Alice has the session [s1], Bob the session [s2]. *)
Definition two_sessions : World :=
  world (mkDb [alice; bob] [] [session_of "s1" "u-alice" 10; session_of "s2" "u-bob" 20]) 5000.
End Demo.

(** * The storage service (supabase/supabase.service.ts)

    [SupabaseService] wraps one bucket of the hosted storage.  The client
    of @supabase/supabase-js is taken by what its calls answer: a storage
    call resolves to a [{ data, error }] pair or rejects.  The service keeps
    its configuration, the client once [onModuleInit] has made it, and the
    lines it hands to its logger. *)
Module Supabase.

Definition BUCKET_NAME : string := "cdn".

(** What is thrown, and what a storage call reports in [error]. *)
Inductive JsError :=
| TypeError (message : string)
| Error (message : string)
| StorageError (message : string).

Record StorageResponse (A : Type) := mkStorageResponse {
  data : option A;
  error : option JsError
}.
Arguments mkStorageResponse {A} _ _.
Arguments data {A} _.
Arguments error {A} _.

Inductive Outcome (A : Type) :=
| Resolves (response : StorageResponse A)
| Rejects (thrown : JsError).
Arguments Resolves {A} _.
Arguments Rejects {A} _.

Record UploadOptions := mkUploadOptions { contentType : option string }.
Record UploadData := mkUploadData { id : string; path : string; fullPath : string }.

(** [supabase.storage.from(bucket)] and its four calls; a file and a blob
    are their bytes. *)
Record SupabaseClient := mkSupabaseClient {
  storage_upload : string → string → string → option UploadOptions → Outcome UploadData;
  storage_download : string → string → Outcome string;
  storage_getPublicUrl : string → string → string;
  storage_remove : string → list string → Outcome (list string)
}.

Record AuthOptions := mkAuthOptions {
  autoRefreshToken : bool;
  persistSession : bool;
  detectSessionInUrl : bool
}.

Record SupabaseConfig := mkSupabaseConfig {
  url : string;
  key : string;
  options : AuthOptions
}.

Inductive LogLine :=
| LoggerLog (message : string)
| LoggerError (message : string) (error : JsError).

Record Service := mkService {
  config : SupabaseConfig;
  supabase : option SupabaseClient;
  logger : list LogLine
}.

Definition logged (line : LogLine) (s : Service) : Service :=
  mkService (config s) (supabase s) (logger s ++ [line]).

(** A method call: the service afterwards, and what the call threw or
    returned. *)
Definition Call (A : Type) : Type := Service → Service * (JsError + A).

(** A string between double quotes. *)
Definition quoted (s : string) : string :=
  String "034"%char (s ++ String "034"%char EmptyString).

(** [configService.getOrThrow(key)] *)
Definition getOrThrow (env : gmap string string) (key : string) : JsError + string :=
  match env !! key with
  | Some v => inr v
  | None => inl (TypeError ("Configuration key " ++ quoted key ++ " does not exist"))
  end.

Definition constructor (env : gmap string string) : JsError + Service :=
  match getOrThrow env "SUPABASE_PROJECT_URL" with
  | inl e => inl e
  | inr url =>
      match getOrThrow env "SUPABASE_PROJECT_API_KEY" with
      | inl e => inl e
      | inr key =>
          inr (mkService (mkSupabaseConfig url key (mkAuthOptions true true true)) None [])
      end
  end.

(** [this.supabase.storage]: reading a property of [undefined] throws. *)
Definition this_supabase (s : Service) : JsError + SupabaseClient :=
  match supabase s with
  | Some client => inr client
  | None => inl (TypeError "Cannot read properties of undefined (reading 'storage')")
  end.

Section Methods.
(** [createClient(url, key, options)] of @supabase/supabase-js. *)
Variable createClient : string → string → AuthOptions → JsError + SupabaseClient.

Definition onModuleInit : Call unit :=
  λ s, match createClient (url (config s)) (key (config s)) (options (config s)) with
       | inr client =>
           (logged (LoggerLog "Supabase client initialized successfully")
                   (mkService (config s) (Some client) (logger s)), inr tt)
       | inl error =>
           (logged (LoggerError "Failed to initialize Supabase client" error) s, inl error)
       end.
End Methods.

Definition getClient (s : Service) : option SupabaseClient := supabase s.

(** The body of a [try] whose storage call is [call], and the [catch]
    that logs and returns [{ data: null, error }]. *)
Definition awaited {A} (s : Service) (call : SupabaseClient → Outcome A) : Outcome A :=
  match this_supabase s with
  | inr client => call client
  | inl e => Rejects e
  end.

Definition uploadFile (path file : string) (options : option UploadOptions)
    : Call (StorageResponse UploadData) :=
  λ s, match awaited s (λ client, storage_upload client BUCKET_NAME path file options) with
       | Resolves r =>
           (match error r with
            | Some error => logged (LoggerError "Upload error for bucket:" error) s
            | None => logged (LoggerLog ("File uploaded successfully to " ++ path)) s
            end, inr (mkStorageResponse (data r) (error r)))
       | Rejects error =>
           (logged (LoggerError "Upload exception for bucket:" error) s,
            inr (mkStorageResponse None (Some error)))
       end.

Definition downloadFile (path : string) : Call (StorageResponse string) :=
  λ s, match awaited s (λ client, storage_download client BUCKET_NAME path) with
       | Resolves r =>
           (match error r with
            | Some error => logged (LoggerError "Download error for bucket:" error) s
            | None => s
            end, inr (mkStorageResponse (data r) (error r)))
       | Rejects error =>
           (logged (LoggerError "Download exception for bucket:" error) s,
            inr (mkStorageResponse None (Some error)))
       end.

(** No [try] here: a missing client throws. *)
Definition getPublicUrl (path : string) : Call string :=
  λ s, match this_supabase s with
       | inr client => (s, inr (storage_getPublicUrl client BUCKET_NAME path))
       | inl e => (s, inl e)
       end.

Definition deleteFile (path : string) : Call (StorageResponse (list string)) :=
  λ s, match awaited s (λ client, storage_remove client BUCKET_NAME [path]) with
       | Resolves r =>
           (match error r with
            | Some error => logged (LoggerError "Delete file error for bucket:" error) s
            | None => logged (LoggerLog ("File deleted successfully from/" ++ path)) s
            end, inr (mkStorageResponse (data r) (error r)))
       | Rejects error =>
           (logged (LoggerError "Delete file exception for bucket:" error) s,
            inr (mkStorageResponse None (Some error)))
       end.

(** [!!this.supabase] *)
Definition isInitialized (s : Service) : bool :=
  match supabase s with
  | Some _ => true
  | None => false
  end.

(** A bucket that holds one file, and a project whose client it is. *)
Definition demo_client : SupabaseClient :=
  mkSupabaseClient
    (λ bucket path file options,
       if bool_decide (path = "avatars/a.png")
       then Resolves (mkStorageResponse None (Some (StorageError "The resource already exists")))
       else Resolves (mkStorageResponse (Some (mkUploadData "f-1" path (bucket ++ "/" ++ path)))
                                        None))
    (λ bucket path,
       if bool_decide (path = "avatars/a.png")
       then Resolves (mkStorageResponse (Some "PNG") None)
       else Rejects (Error "fetch failed"))
    (λ bucket path, "https://project.supabase.co/storage/v1/object/public/"
                    ++ bucket ++ "/" ++ path)
    (λ bucket paths, Resolves (mkStorageResponse (Some paths) None)).

Definition demo_createClient (url key : string) (options : AuthOptions)
    : JsError + SupabaseClient :=
  if bool_decide (url = "") then inl (Error "supabaseUrl is required.")
  else inr demo_client.

Definition demo_env : gmap string string :=
  {[ "SUPABASE_PROJECT_URL" := "https://project.supabase.co";
     "SUPABASE_PROJECT_API_KEY" := "anon-key" ]}.

Definition demo_service : Service :=
  mkService (mkSupabaseConfig "https://project.supabase.co" "anon-key"
                              (mkAuthOptions true true true)) None [].
End Supabase.

(** * Properties *)

(** ** Running an action *)

Definition result {A} (r : World * (Exception + A)) : Exception + A := r.2.
Definition final {A} (r : World * (Exception + A)) : World := r.1.

Definition succeeds {A} (r : World * (Exception + A)) : Prop :=
  ∃ a, result r = inr a.

(** What [validate] accepts: a reachable store, a token that verifies
    under the configured secret, the user its [sub] names, and a session of
    that user that is not revoked. *)
Definition accepted `{Collaborators} (accessToken : string) (w : World) (user : User.t) : Prop :=
  storeDown w = false
  ∧ ∃ secret payload id,
      config w !! "JWT_SECRET" = Some secret
      ∧ jwtService_verifyAsync accessToken secret = Some payload
      ∧ sub payload = Some id
      ∧ user_findUnique id (db w) = Some user
      ∧ ∃ s, s ∈ sessions (db w)
             ∧ Session.userId s = User.id user ∧ Session.revoked s = false.

(** The row [user.create] writes for a registration form. *)
Definition registered_user `{Collaborators} (body : RegisterUser.t) (rnd : Entropy)
    (now : Z) : User.t :=
  User.mk (uuid_user rnd) (snowflake rnd) now ACTIVE
          (Email.mk (uuid_email rnd) (RegisterUser.email body) EVERYONE)
          (argon2_hash (salt rnd) (RegisterUser.password body))
          (RegisterUser.displayName body) (RegisterUser.gender body)
          (RegisterUser.birthday body).

(** The compound key of the [Code] rows ([@@unique([userId, type])]). *)
Definition code_keys (d : Db) : list (string * TypeCode) :=
  map (λ c, (Code.userId c, Code.type c)) (codes d).

(** The primary email addresses on file. *)
Definition primary_emails (d : Db) : list string :=
  map (λ u, Email.value (User.primaryEmail u)) (users d).

(** A session of the user from this address and device. *)
Definition same_device (userId ip deviceName : string) (s : Session.t) : Prop :=
  Session.userId s = userId
  ∧ Session.deviceName s = Some deviceName
  ∧ Session.ipAddress s = Some ip.

(** The step of [newest]: the later of the best row so far and the next. *)
Definition newer (best : option Session.t) (s : Session.t) : option Session.t :=
  match best with
  | None => Some s
  | Some b => if Session.createdAt b <? Session.createdAt s then Some s else Some b
  end.

(** The row [code.upsert] leaves under the key [(userId, type)]: the new
    tokens and expiry, and the creation time of the row that was there, if
    any. *)
Definition upserted_row (type : TypeCode) (userId : string) (tokens : list string)
    (expiresAt now : Z) (d : Db) : Code.t :=
  Code.mk tokens (Some expiresAt) type userId
          (match code_findFirst_key type userId d with
           | Some old => Code.createdAt old
           | None => now
           end)
          (Some now).

(** The session id [logout] works on: the argument, or else the cookie. *)
Definition resolved_session_id (req : Request) (sessionId : option string) : option string :=
  truthy (js_or sessionId (cookies_session_id req)).

Lemma run_bind {A B} (m : M A) (k : A → M B) w w' a :
  m w = (w', inr a) → bind m k w = k a w'.
Proof. intros Hm. unfold bind. by rewrite Hm. Qed.

Lemma run_bind_throw {A B} (m : M A) (k : A → M B) w w' e :
  m w = (w', inl e) → bind m k w = (w', inl e).
Proof. intros Hm. unfold bind. by rewrite Hm. Qed.

Lemma run_prisma_read {A} (q : Db → A) w :
  storeDown w = false → prisma_read q w = (w, inr (q (db w))).
Proof. intros Hup. unfold prisma_read. by rewrite Hup. Qed.

Lemma run_prisma_write {A} op (f : Db → Exception + (Db * A)) w d a :
  storeDown w = false → f (db w) = inr (d, a) →
  prisma_write op f w = (log (DbWrite op) (set_db d w), inr a).
Proof. intros Hup Hf. unfold prisma_write. by rewrite Hup, Hf. Qed.

Lemma run_prisma_write_fail {A} op (f : Db → Exception + (Db * A)) w e :
  storeDown w = false → f (db w) = inl e → prisma_write op f w = (w, inl e).
Proof. intros Hup Hf. unfold prisma_write. by rewrite Hup, Hf. Qed.

(** ** Facts about the queries *)

Lemma find_none_elem_of {A} (f : A → bool) (l : list A) :
  (∀ x, x ∈ l → f x = false) → List.find f l = None.
Proof.
  induction l as [|a l IH]; intros Hall; [done|].
  simpl. rewrite (Hall a) by left. apply IH. intros x Hx. apply Hall. by right.
Qed.

Lemma find_some_elem_of {A} (f : A → bool) (l : list A) x :
  List.find f l = Some x → x ∈ l ∧ f x = true.
Proof.
  intros Hfind. apply List.find_some in Hfind as [Hin Hf].
  split; [by apply list_elem_of_In|done].
Qed.

Lemma code_findFirst_has_tokens code d row :
  code_findFirst_has code d = Some row → code ∈ Code.tokens row ∧ row ∈ codes d.
Proof.
  intros Hfind. apply find_some_elem_of in Hfind as [Hin Hdec].
  split; [by apply bool_decide_eq_true in Hdec|done].
Qed.

(** ** login: the rejections *)

(** C6.  [login] throws NotFound when no user has the given address as
    primary email, and Unauthorized when the user is found but the password
    does not verify against the stored hash.  Either way the call ends in
    the world it started in: no session row is created or modified. *)
Theorem login_rejections `{Collaborators} (data : LoginDto.t) (req : Request)
    (rnd : Entropy) (w : World) :
  storeDown w = false →
  ((∀ u, u ∈ users (db w) → Email.value (User.primaryEmail u) ≠ LoginDto.email data) →
     login data req rnd w = (w, inl (NotFoundException "User not found")))
  ∧ (∀ user,
       user_findFirst_primaryEmail (LoginDto.email data) (db w) = Some user →
       argon2_verify (User.hashedPassword user) (LoginDto.password data) = false →
       login data req rnd w = (w, inl (UnauthorizedException "Password is not matched"))
       ∧ sessions (db (final (login data req rnd w))) = sessions (db w)).
Proof.
  intros Hup. split.
  - intros Hnone. unfold login.
    rewrite (run_bind _ _ _ _ _ (run_prisma_read _ _ Hup)).
    unfold user_findFirst_primaryEmail. rewrite find_none_elem_of; [done|].
    intros u Hu. apply bool_decide_eq_false. by apply Hnone.
  - intros user Hfind Hverify.
    assert (login data req rnd w
            = (w, inl (UnauthorizedException "Password is not matched"))) as Hrun.
    { unfold login. rewrite (run_bind _ _ _ _ _ (run_prisma_read _ _ Hup)).
      rewrite Hfind, Hverify. done. }
    by rewrite Hrun.
Qed.

Lemma login_rejections_witness :
  @login Demo.collaborators (LoginDto.mk "nobody@x.com" "pw1") Demo.browser_request Demo.rnd
        (Demo.world (mkDb [Demo.alice; Demo.bob] [] []) 5000)
  = (Demo.world (mkDb [Demo.alice; Demo.bob] [] []) 5000,
     inl (NotFoundException "User not found"))
  ∧ @login Demo.collaborators (LoginDto.mk "a@x.com" "wrong") Demo.browser_request Demo.rnd
          (Demo.world (mkDb [Demo.alice; Demo.bob] [] []) 5000)
    = (Demo.world (mkDb [Demo.alice; Demo.bob] [] []) 5000,
       inl (UnauthorizedException "Password is not matched")).
Proof.
  split.
  - apply (proj1 (login_rejections (H := Demo.collaborators)
                    (LoginDto.mk "nobody@x.com" "pw1") Demo.browser_request Demo.rnd
                    (Demo.world (mkDb [Demo.alice; Demo.bob] [] []) 5000) eq_refl)).
    intros u Hu. simpl in Hu.
    apply elem_of_cons in Hu as [->|Hu]; [by vm_compute|].
    apply elem_of_cons in Hu as [->|Hu]; [by vm_compute|].
    by apply elem_of_nil in Hu.
  - apply (proj2 (login_rejections (H := Demo.collaborators)
                    (LoginDto.mk "a@x.com" "wrong") Demo.browser_request Demo.rnd
                    (Demo.world (mkDb [Demo.alice; Demo.bob] [] []) 5000) eq_refl)
                 Demo.alice); reflexivity.
Defined.


(** ** confirmRecoveryAccount: the rate limit and the expiry *)

Section ConfirmRecovery.
Context `{Collaborators}.
Variables (email code newPassword : string) (rnd : Entropy) (w : World).
Hypothesis store_up : storeDown w = false.

Lemma confirmRecoveryAccount_conflict row :
  code_findFirst_has code (db w) = Some row →
  clock w - Code.createdAt row < MIN_TIME_TO_REQUEST →
  confirmRecoveryAccount email code newPassword rnd w
  = (w, inl (ConflictException "Please wait 1 minutes before requesting again")).
Proof.
  intros Hfind Hfresh. unfold confirmRecoveryAccount.
  rewrite (run_bind _ _ _ _ _ (run_prisma_read _ _ store_up)), Hfind.
  unfold bind, Date_now.
  by rewrite (proj2 (Z.gtb_lt _ _)) by lia.
Qed.

Lemma confirmRecoveryAccount_no_row :
  (∀ row, row ∈ codes (db w) → code ∉ Code.tokens row) →
  confirmRecoveryAccount email code newPassword rnd w
  = (w, inl (UnauthorizedException "Code is not matched or expired")).
Proof.
  intros Hnone. unfold confirmRecoveryAccount.
  rewrite (run_bind _ _ _ _ _ (run_prisma_read _ _ store_up)).
  unfold code_findFirst_has. rewrite find_none_elem_of; [done|].
  intros row Hrow. apply bool_decide_eq_false. by apply Hnone.
Qed.

Lemma confirmRecoveryAccount_expired row :
  code_findFirst_has code (db w) = Some row →
  MAXINUM_AVAILABLE_TIME < clock w - Code.createdAt row →
  confirmRecoveryAccount email code newPassword rnd w
  = (w, inl (UnauthorizedException "Code is not matched or expired")).
Proof.
  intros Hfind Hold. unfold confirmRecoveryAccount.
  rewrite (run_bind _ _ _ _ _ (run_prisma_read _ _ store_up)), Hfind.
  unfold bind, Date_now.
  assert ((Code.createdAt row + MIN_TIME_TO_REQUEST >? clock w) = false) as ->.
  { unfold MIN_TIME_TO_REQUEST, MAXINUM_AVAILABLE_TIME in *.
    rewrite Z.gtb_ltb. apply Z.ltb_ge. lia. }
  rewrite (proj2 (Z.ltb_lt _ _)) by lia.
  by rewrite orb_true_r.
Qed.
End ConfirmRecovery.

Lemma find_app_first {A} (f : A → bool) (before after : list A) (x : A) :
  (∀ y, y ∈ before → f y = false) → f x = true →
  List.find f (before ++ x :: after)%list = Some x.
Proof.
  intros Hbefore Hx. induction before as [|a before IH]; simpl.
  - by rewrite Hx.
  - rewrite (Hbefore a) by left. apply IH. intros y Hy. apply Hbefore. by right.
Qed.

(** The lookup by token returns the first row of the table that holds the
    code, whoever its user and whatever its type. *)
Lemma code_findFirst_has_first code d before row after :
  codes d = (before ++ row :: after)%list →
  (∀ r, r ∈ before → code ∉ Code.tokens r) →
  code ∈ Code.tokens row →
  code_findFirst_has code d = Some row.
Proof.
  intros Htable Hbefore Hrow. unfold code_findFirst_has. rewrite Htable.
  apply find_app_first.
  - intros r Hr. apply bool_decide_eq_false. by apply Hbefore.
  - by apply bool_decide_eq_true.
Qed.

(** C3, as the code has it.  The tests are made on the first row of the
    table that holds the code, and on no other row that may hold it: while
    fewer than 60 seconds have passed since the creation of that row the
    call throws Conflict, a test made before the expiry test; when more than
    5 minutes have passed since its creation, or when no row holds the
    code, the call throws Unauthorized.  The world is left as it was. *)
Theorem confirmRecoveryAccount_rejections `{Collaborators}
    (email code newPassword : string) (rnd : Entropy) (w : World) :
  storeDown w = false →
  (∀ before row after,
     codes (db w) = (before ++ row :: after)%list →
     (∀ r, r ∈ before → code ∉ Code.tokens r) →
     code ∈ Code.tokens row →
     (clock w - Code.createdAt row < 60000 →
      confirmRecoveryAccount email code newPassword rnd w
      = (w, inl (ConflictException "Please wait 1 minutes before requesting again")))
     ∧ (5 * 60000 < clock w - Code.createdAt row →
        confirmRecoveryAccount email code newPassword rnd w
        = (w, inl (UnauthorizedException "Code is not matched or expired"))))
  ∧ ((∀ row, row ∈ codes (db w) → code ∉ Code.tokens row) →
     confirmRecoveryAccount email code newPassword rnd w
     = (w, inl (UnauthorizedException "Code is not matched or expired"))).
Proof.
  intros Hup. split.
  - intros before row after Htable Hbefore Hrow.
    pose proof (code_findFirst_has_first _ _ _ _ _ Htable Hbefore Hrow) as Hfind.
    split.
    + intros Hfresh. by eapply confirmRecoveryAccount_conflict.
    + intros Hold. by eapply confirmRecoveryAccount_expired.
  - by apply confirmRecoveryAccount_no_row.
Qed.

Lemma confirmRecoveryAccount_rejections_witness :
  result (@confirmRecoveryAccount Demo.collaborators "b@x.com" "123456" "newpw" Demo.rnd
            (Demo.world Demo.behind_another 64999))
  = inl (ConflictException "Please wait 1 minutes before requesting again")
  ∧ result (@confirmRecoveryAccount Demo.collaborators "b@x.com" "123456" "newpw" Demo.rnd
              (Demo.world Demo.behind_another 305001))
    = inl (UnauthorizedException "Code is not matched or expired")
  ∧ result (@confirmRecoveryAccount Demo.collaborators "a@x.com" "654321" "newpw" Demo.rnd
              (Demo.world Demo.recovering 70000))
    = inl (UnauthorizedException "Code is not matched or expired").
Proof.
  assert (∀ r, r ∈ [Demo.code_row RECOVERY "u-bob" "999999" 1000] →
               "123456" ∉ Code.tokens r) as Hbefore.
  { intros r Hr. apply list_elem_of_singleton in Hr as ->.
    intros Hin. by apply list_elem_of_singleton in Hin. }
  assert ("123456" ∈ Code.tokens (Demo.code_row VERIFICATION "u-alice" "123456" 5000))
    as Hrow by (simpl; by left).
  split_and!.
  - rewrite (proj1 (proj1 (confirmRecoveryAccount_rejections (H := Demo.collaborators)
                             "b@x.com" "123456" "newpw" Demo.rnd
                             (Demo.world Demo.behind_another 64999) eq_refl)
                          [Demo.code_row RECOVERY "u-bob" "999999" 1000]
                          (Demo.code_row VERIFICATION "u-alice" "123456" 5000) []
                          eq_refl Hbefore Hrow));
      [reflexivity|simpl; lia].
  - rewrite (proj2 (proj1 (confirmRecoveryAccount_rejections (H := Demo.collaborators)
                             "b@x.com" "123456" "newpw" Demo.rnd
                             (Demo.world Demo.behind_another 305001) eq_refl)
                          [Demo.code_row RECOVERY "u-bob" "999999" 1000]
                          (Demo.code_row VERIFICATION "u-alice" "123456" 5000) []
                          eq_refl Hbefore Hrow));
      [reflexivity|simpl; lia].
  - rewrite (proj2 (confirmRecoveryAccount_rejections (H := Demo.collaborators)
                      "a@x.com" "654321" "newpw" Demo.rnd
                      (Demo.world Demo.recovering 70000) eq_refl)); [reflexivity|].
    intros row Hrow'. apply list_elem_of_singleton in Hrow' as ->.
    intros Hin. by apply list_elem_of_singleton in Hin.
Defined.

(** C3 fails as stated when two rows hold the same code.  With Alice's row
    of time 5000 before Bob's of time 400000, at time 400001 a row that
    holds the code is one millisecond old and the call throws Unauthorized,
    not Conflict.  With Alice's forgot-password row of time 300000 before
    Bob's row of time 5000, at time 400000 a row that holds the code is more
    than 5 minutes old and the call succeeds. *)
Lemma confirmRecoveryAccount_rejections_counterexample :
  (Demo.code_row RECOVERY "u-bob" "123456" 400000 ∈ codes Demo.same_code_twice
   ∧ "123456" ∈ Code.tokens (Demo.code_row RECOVERY "u-bob" "123456" 400000)
   ∧ 400001 - Code.createdAt (Demo.code_row RECOVERY "u-bob" "123456" 400000) < 60000
   ∧ result (@confirmRecoveryAccount Demo.collaborators "b@x.com" "123456" "newpw" Demo.rnd
               (Demo.world Demo.same_code_twice 400001))
     = inl (UnauthorizedException "Code is not matched or expired"))
  ∧ (Demo.code_row RECOVERY "u-bob" "123456" 5000 ∈ codes Demo.same_code_live
     ∧ "123456" ∈ Code.tokens (Demo.code_row RECOVERY "u-bob" "123456" 5000)
     ∧ 5 * 60000 < 400000 - Code.createdAt (Demo.code_row RECOVERY "u-bob" "123456" 5000)
     ∧ result (@confirmRecoveryAccount Demo.collaborators "b@x.com" "123456" "newpw" Demo.rnd
                 (Demo.world Demo.same_code_live 400000))
       = inr "Send notification recovery email successful").
Proof.
  split; split_and!; try reflexivity.
  - apply list_elem_of_further, list_elem_of_here.
  - simpl. by left.
  - apply list_elem_of_further, list_elem_of_here.
  - simpl. by left.
Qed.

(** ** confirmRecoveryAccount: the update *)

Lemma existsb_find {A} (f : A → bool) (l : list A) :
  existsb f l = bool_decide (is_Some (List.find f l)).
Proof.
  induction l as [|a l IH]; [done|].
  simpl. destruct (f a); [|done].
  rewrite bool_decide_eq_true_2; [done|by eexists].
Qed.

Lemma existsb_pointwise {A} (f g : A → bool) (l : list A) :
  (∀ x, f x = g x) → existsb f l = existsb g l.
Proof.
  intros Hfg. induction l as [|a l IH]; [done|].
  simpl. by rewrite Hfg, IH.
Qed.

Lemma find_map_stable {A} (p : A → bool) (g : A → A) (l : list A) :
  (∀ x, p (g x) = p x) → List.find p (map g l) = g <$> List.find p l.
Proof.
  intros Hstable. induction l as [|a l IH]; [done|].
  simpl. rewrite Hstable. by destruct (p a).
Qed.

Lemma nested_code_key type id (c : Code.t) :
  code_has_key type id c && bool_decide (Code.userId c = id) = code_has_key type id c.
Proof.
  unfold code_has_key. destruct (bool_decide (Code.type c = type)); [|done].
  simpl. by destruct (bool_decide (Code.userId c = id)).
Qed.

Lemma user_update_deleting id hashedPassword type d u row :
  user_findUnique id d = Some u →
  code_findFirst_key type id d = Some row →
  user_update id hashedPassword (Some (type, id)) d
  = inr (mkDb (users_with_password id hashedPassword d)
              (List.filter (λ c, negb (code_has_key type id c)) (codes d))
              (sessions d),
         User.with_hashedPassword hashedPassword u).
Proof.
  intros Huser Hrow. unfold user_update. rewrite Huser.
  rewrite (existsb_pointwise _ _ _ (nested_code_key type id)), existsb_find.
  unfold code_findFirst_key in Hrow. rewrite Hrow.
  by rewrite bool_decide_eq_true_2 by by eexists.
Qed.

Lemma user_update_nothing_to_delete id hashedPassword type d :
  code_findFirst_key type id d = None →
  ∃ message, user_update id hashedPassword (Some (type, id)) d = inl (InternalError message).
Proof.
  intros Hrow. unfold user_update.
  destruct (user_findUnique id d); [|by eexists].
  rewrite (existsb_pointwise _ _ _ (nested_code_key type id)), existsb_find.
  unfold code_findFirst_key in Hrow. rewrite Hrow.
  rewrite bool_decide_eq_false_2; [by eexists|].
  by intros [? ?].
Qed.

Lemma user_findUnique_updated id hashedPassword d u cs ss :
  user_findUnique id d = Some u →
  user_findUnique id (mkDb (users_with_password id hashedPassword d) cs ss)
  = Some (User.with_hashedPassword hashedPassword u).
Proof.
  intros Huser. unfold user_findUnique, users_with_password in *. simpl.
  rewrite find_map_stable.
  - rewrite Huser. simpl.
    apply find_some_elem_of in Huser as [_ Hid].
    by rewrite Hid.
  - intros v. by destruct (bool_decide (User.id v = id)) eqn:Hv.
Qed.

(** Between one and five minutes after the creation of the row found, the
    call is the user update followed by the notification. *)
Lemma confirmRecoveryAccount_in_window `{Collaborators}
    (email code newPassword : string) (rnd : Entropy) (w : World) row :
  storeDown w = false →
  code_findFirst_has code (db w) = Some row →
  (MIN_TIME_TO_REQUEST ≤ clock w - Code.createdAt row ≤ MAXINUM_AVAILABLE_TIME)%Z →
  confirmRecoveryAccount email code newPassword rnd w
  = (prisma_write "user.update"
       (user_update (Code.userId row) (hashing rnd newPassword)
                    (Some (VERIFICATION, Code.userId row))) ;;;
     emailService_sendNotificationResetPassword email ;;;
     ret "Send notification recovery email successful") w.
Proof.
  intros Hup Hfind [Hmin Hmax]. unfold confirmRecoveryAccount.
  rewrite (run_bind _ _ _ _ _ (run_prisma_read _ _ Hup)), Hfind.
  rewrite (run_bind Date_now _ w w (clock w) eq_refl).
  assert ((Code.createdAt row + MIN_TIME_TO_REQUEST >? clock w) = false) as ->.
  { rewrite Z.gtb_ltb. apply Z.ltb_ge. lia. }
  assert ((Code.createdAt row + MAXINUM_AVAILABLE_TIME <? clock w) = false) as ->.
  { apply Z.ltb_ge. lia. }
  apply code_findFirst_has_tokens in Hfind as [Hin _].
  by rewrite bool_decide_eq_true_2.
Qed.

(** The tables after the update of a confirmed recovery. *)
Lemma confirmRecoveryAccount_success `{Collaborators}
    (email code newPassword : string) (rnd : Entropy) (w : World) row u v :
  storeDown w = false →
  code_findFirst_has code (db w) = Some row →
  MIN_TIME_TO_REQUEST ≤ clock w - Code.createdAt row ≤ MAXINUM_AVAILABLE_TIME →
  user_findUnique (Code.userId row) (db w) = Some u →
  code_findFirst_key VERIFICATION (Code.userId row) (db w) = Some v →
  confirmRecoveryAccount email code newPassword rnd w
  = (log (EmailSent (NotificationResetPassword email))
       (log (DbWrite "user.update")
          (set_db (mkDb (users_with_password (Code.userId row)
                                             (hashing rnd newPassword) (db w))
                        (List.filter (λ c, negb (code_has_key VERIFICATION (Code.userId row) c))
                                     (codes (db w)))
                        (sessions (db w))) w)),
     inr "Send notification recovery email successful").
Proof.
  intros Hup Hfind Hwindow Huser Hverification.
  rewrite (confirmRecoveryAccount_in_window _ _ _ _ _ _ Hup Hfind Hwindow).
  rewrite (run_bind _ _ _ _ _
             (run_prisma_write _ _ _ _ _ Hup
                (user_update_deleting _ _ _ _ _ _ Huser Hverification))).
  done.
Qed.

Ltac run_service :=
  unfold bind, ret, throw, emit, prisma_read, prisma_write, Date_now,
    emailService_sendNotificationResetPassword, emailService_sendResetPasswordAccount,
    emailService_sendDetectOtherDevice, final, result in *;
  simpl in *.

(** C8.  Past the two time tests, [confirmRecoveryAccount] writes the new
    hash and deletes the VERIFICATION row of the user in one update.  So
    when the row found is a RECOVERY row and the user has no VERIFICATION
    row, the update is rejected, the call ends with an exception and the
    world, the stored hash included, is as it was. *)
Theorem recovery_code_alone_never_resets `{Collaborators}
    (email code newPassword : string) (rnd : Entropy) (w : World) (row : Code.t) :
  storeDown w = false →
  code_findFirst_has code (db w) = Some row →
  (∀ u v,
     MIN_TIME_TO_REQUEST ≤ clock w - Code.createdAt row ≤ MAXINUM_AVAILABLE_TIME →
     user_findUnique (Code.userId row) (db w) = Some u →
     code_findFirst_key VERIFICATION (Code.userId row) (db w) = Some v →
     confirmRecoveryAccount email code newPassword rnd w
     = (log (EmailSent (NotificationResetPassword email))
          (log (DbWrite "user.update")
             (set_db (mkDb (users_with_password (Code.userId row)
                                                (hashing rnd newPassword) (db w))
                           (List.filter (λ c, negb (code_has_key VERIFICATION (Code.userId row) c))
                                        (codes (db w)))
                           (sessions (db w))) w)),
        inr "Send notification recovery email successful"))
  ∧ (Code.type row = RECOVERY →
     code_findFirst_key VERIFICATION (Code.userId row) (db w) = None →
     (∃ e, confirmRecoveryAccount email code newPassword rnd w = (w, inl e))
     ∧ (MIN_TIME_TO_REQUEST ≤ clock w - Code.createdAt row ≤ MAXINUM_AVAILABLE_TIME →
        ∃ message, confirmRecoveryAccount email code newPassword rnd w
                   = (w, inl (InternalError message)))).
Proof.
  intros Hup Hfind. split.
  - intros u v Hwindow Huser Hverification.
    by eapply confirmRecoveryAccount_success.
  - intros _ Hnone.
    assert (MIN_TIME_TO_REQUEST ≤ clock w - Code.createdAt row ≤ MAXINUM_AVAILABLE_TIME →
            ∃ message, confirmRecoveryAccount email code newPassword rnd w
                       = (w, inl (InternalError message))) as Hrejected.
    { intros Hwindow.
      destruct (user_update_nothing_to_delete (Code.userId row) (hashing rnd newPassword)
                  VERIFICATION (db w) Hnone) as [message Hfail].
      exists message.
      rewrite (confirmRecoveryAccount_in_window _ _ _ _ _ _ Hup Hfind Hwindow).
      by rewrite (run_bind_throw _ _ _ _ _ (run_prisma_write_fail _ _ _ _ Hup Hfail)). }
    split; [|done].
    destruct (decide (clock w - Code.createdAt row < MIN_TIME_TO_REQUEST)) as [Hfresh|Hwait].
    { eexists. by eapply confirmRecoveryAccount_conflict. }
    destruct (decide (MAXINUM_AVAILABLE_TIME < clock w - Code.createdAt row)) as [Hold|Hlive].
    { eexists. by eapply confirmRecoveryAccount_expired. }
    destruct Hrejected as [message Hrun]; [lia|by eexists].
Qed.

Lemma recovery_code_alone_never_resets_witness :
  map User.hashedPassword
      (users (db (final (@confirmRecoveryAccount Demo.collaborators "a@x.com" "123456" "newpw"
                           Demo.rnd (Demo.world Demo.recovering_verified 70000)))))
  = ["$argon2id$newpw"; "$argon2id$pw2"]
  ∧ ∃ e, @confirmRecoveryAccount Demo.collaborators "a@x.com" "123456" "newpw" Demo.rnd
           (Demo.world Demo.recovering 70000)
         = (Demo.world Demo.recovering 70000, inl e).
Proof.
  split.
  - rewrite (proj1 (recovery_code_alone_never_resets (H := Demo.collaborators)
                      "a@x.com" "123456" "newpw" Demo.rnd
                      (Demo.world Demo.recovering_verified 70000)
                      (Demo.code_row RECOVERY "u-alice" "123456" 5000) eq_refl eq_refl)
                   Demo.alice (Demo.code_row VERIFICATION "u-alice" "777777" 4000));
      [reflexivity|by vm_compute|reflexivity|reflexivity].
  - apply (proj2 (recovery_code_alone_never_resets (H := Demo.collaborators)
                    "a@x.com" "123456" "newpw" Demo.rnd
                    (Demo.world Demo.recovering 70000)
                    (Demo.code_row RECOVERY "u-alice" "123456" 5000) eq_refl eq_refl)
                 eq_refl eq_refl).
Defined.

(** ** confirmRecoveryAccount: the email argument *)

Lemma user_update_committed id hashedPassword type d d' u' :
  user_update id hashedPassword (Some (type, id)) d = inr (d', u') →
  ∃ owner,
    user_findUnique id d = Some owner
    ∧ d' = mkDb (users_with_password id hashedPassword d)
                (List.filter (λ c, negb (code_has_key type id c)) (codes d))
                (sessions d)
    ∧ u' = User.with_hashedPassword hashedPassword owner.
Proof.
  unfold user_update. intros Hupdate.
  destruct (user_findUnique id d) as [owner|]; [|done].
  destruct (existsb _ (codes d)); [|done].
  exists owner. by simplify_eq.
Qed.

(** C4, as the code has it.  The tables and the outcome of the call are the
    same for every [email] argument, which shows only as the recipient of
    the notification.  The row is the first of the whole [Code] table that
    holds the code, whoever its user and whatever its type: while that row
    is less than 60 seconds old the call throws Conflict, and whenever the
    call succeeds, which it does only between 60 seconds and 5 minutes after
    the creation of that row, it is the password of the owner of that row,
    and of no other account, that becomes the hash of the new password,
    whatever address the caller gave. *)
Theorem confirmRecoveryAccount_ignores_email `{Collaborators}
    (code newPassword : string) (rnd : Entropy) (w : World) :
  (∃ (d : Db) (r : Exception + string), ∀ email,
      db (final (confirmRecoveryAccount email code newPassword rnd w)) = d
      ∧ redis (final (confirmRecoveryAccount email code newPassword rnd w)) = redis w
      ∧ result (confirmRecoveryAccount email code newPassword rnd w) = r
      ∧ trace (final (confirmRecoveryAccount email code newPassword rnd w))
        = (trace w ++ match r with
                      | inr _ => [DbWrite "user.update";
                                  EmailSent (NotificationResetPassword email)]
                      | inl _ => []
                      end)%list)
  ∧ (∀ before row after email,
       storeDown w = false →
       codes (db w) = (before ++ row :: after)%list →
       (∀ r, r ∈ before → code ∉ Code.tokens r) →
       code ∈ Code.tokens row →
       (clock w - Code.createdAt row < 60000 →
        confirmRecoveryAccount email code newPassword rnd w
        = (w, inl (ConflictException "Please wait 1 minutes before requesting again")))
       ∧ (succeeds (confirmRecoveryAccount email code newPassword rnd w) →
          60000 ≤ clock w - Code.createdAt row ≤ 5 * 60000
          ∧ ∃ owner,
              user_findUnique (Code.userId row) (db w) = Some owner
              ∧ user_findUnique (Code.userId row)
                  (db (final (confirmRecoveryAccount email code newPassword rnd w)))
                = Some (User.with_hashedPassword (hashing rnd newPassword) owner)
              ∧ Forall2 (λ before after,
                           after = before
                           ∨ (User.id before = Code.userId row
                              ∧ after = User.with_hashedPassword
                                          (hashing rnd newPassword) before))
                        (users (db w))
                        (users (db (final (confirmRecoveryAccount email code newPassword
                                             rnd w)))))).
Proof.
  split.
  - exists (db (final (confirmRecoveryAccount "" code newPassword rnd w))),
           (result (confirmRecoveryAccount "" code newPassword rnd w)).
    intros email. unfold confirmRecoveryAccount. run_service.
    destruct (storeDown w) eqn:Hup; simpl.
    { by rewrite app_nil_r. }
    destruct (code_findFirst_has code (db w)) as [row|]; simpl;
      [|by rewrite app_nil_r].
    destruct (Code.createdAt row + MIN_TIME_TO_REQUEST >? clock w); simpl;
      [by rewrite app_nil_r|].
    destruct (negb (bool_decide (code ∈ Code.tokens row))
              || (Code.createdAt row + MAXINUM_AVAILABLE_TIME <? clock w)); simpl;
      [by rewrite app_nil_r|].
    rewrite Hup.
    destruct (user_update (Code.userId row) (hashing rnd newPassword)
                          (Some (VERIFICATION, Code.userId row)) (db w)) as [e|[d u]]; simpl;
      [by rewrite app_nil_r|].
    by rewrite <- app_assoc.
  - intros before row after email Hup Htable Hbefore Hrow.
    pose proof (code_findFirst_has_first _ _ _ _ _ Htable Hbefore Hrow) as Hfind.
    split.
    + intros Hfresh. by eapply confirmRecoveryAccount_conflict.
    + intros [message Hok].
      destruct (decide (clock w - Code.createdAt row < MIN_TIME_TO_REQUEST)) as [Hfresh|Hwait].
      { by rewrite (confirmRecoveryAccount_conflict email code newPassword rnd w Hup row
                      Hfind Hfresh) in Hok. }
      destruct (decide (MAXINUM_AVAILABLE_TIME < clock w - Code.createdAt row)) as [Hold|Hlive].
      { by rewrite (confirmRecoveryAccount_expired email code newPassword rnd w Hup row
                      Hfind Hold) in Hok. }
      assert (MIN_TIME_TO_REQUEST ≤ clock w - Code.createdAt row ≤ MAXINUM_AVAILABLE_TIME)
        as Hwindow by lia.
      split; [unfold MIN_TIME_TO_REQUEST, MAXINUM_AVAILABLE_TIME in Hwindow; lia|].
      rewrite (confirmRecoveryAccount_in_window _ _ _ _ _ _ Hup Hfind Hwindow) in Hok |- *.
      destruct (user_update (Code.userId row) (hashing rnd newPassword)
                            (Some (VERIFICATION, Code.userId row)) (db w))
        as [e|[d u]] eqn:Hupdate.
      { by rewrite (run_bind_throw _ _ _ _ _ (run_prisma_write_fail _ _ _ _ Hup Hupdate))
          in Hok. }
      rewrite (run_bind _ _ _ _ _ (run_prisma_write _ _ _ _ _ Hup Hupdate)).
      apply user_update_committed in Hupdate as (owner & Howner & -> & ->).
      exists owner. split_and!; [done| |].
      * simpl. by apply user_findUnique_updated.
      * simpl. unfold users_with_password.
        apply Forall2_fmap_r, Forall_Forall2_diag, Forall_forall. intros v _.
        unfold compose. destruct (bool_decide (User.id v = Code.userId row)) eqn:Hv.
        -- right. by apply bool_decide_eq_true in Hv.
        -- by left.
Qed.

Lemma confirmRecoveryAccount_ignores_email_witness :
  @confirmRecoveryAccount Demo.collaborators "mallory@evil.example" "123456" "newpw" Demo.rnd
    (Demo.world Demo.behind_another 5000)
  = (Demo.world Demo.behind_another 5000,
     inl (ConflictException "Please wait 1 minutes before requesting again"))
  ∧ User.hashedPassword
      <$> user_findUnique "u-alice"
            (db (final (@confirmRecoveryAccount Demo.collaborators "mallory@evil.example"
                          "123456" "newpw" Demo.rnd
                          (Demo.world Demo.behind_another 70000))))
    = Some "$argon2id$newpw".
Proof.
  assert (∀ r, r ∈ [Demo.code_row RECOVERY "u-bob" "999999" 1000] →
               "123456" ∉ Code.tokens r) as Hbefore.
  { intros r Hr. apply list_elem_of_singleton in Hr as ->.
    intros Hin. by apply list_elem_of_singleton in Hin. }
  assert ("123456" ∈ Code.tokens (Demo.code_row VERIFICATION "u-alice" "123456" 5000))
    as Hrow by (simpl; by left).
  split.
  - apply (proj2 (confirmRecoveryAccount_ignores_email (H := Demo.collaborators)
                    "123456" "newpw" Demo.rnd (Demo.world Demo.behind_another 5000))
                 [Demo.code_row RECOVERY "u-bob" "999999" 1000]
                 (Demo.code_row VERIFICATION "u-alice" "123456" 5000) []
                 "mallory@evil.example" eq_refl eq_refl Hbefore Hrow).
    simpl. lia.
  - destruct (proj2 (proj2 (confirmRecoveryAccount_ignores_email (H := Demo.collaborators)
                              "123456" "newpw" Demo.rnd
                              (Demo.world Demo.behind_another 70000))
                           [Demo.code_row RECOVERY "u-bob" "999999" 1000]
                           (Demo.code_row VERIFICATION "u-alice" "123456" 5000) []
                           "mallory@evil.example" eq_refl eq_refl Hbefore Hrow))
      as (_ & owner & Howner & Hupdated & _).
    + by eexists.
    + simpl in Howner. injection Howner as <-.
      exact (f_equal (fmap User.hashedPassword) Hupdated).
Defined.

(** C4 fails as stated in its last part.  A caller who gives a stranger's
    address with the recovery code issued to Alice does not update Alice's
    password when the code is given back at once (the call throws
    Conflict), nor 65 seconds later (Alice has no VERIFICATION row and the
    update is rejected); her stored hash is as it was. *)
Lemma confirmRecoveryAccount_ignores_email_counterexample :
  (code_findFirst_has "123456" Demo.recovering
   = Some (Demo.code_row RECOVERY "u-alice" "123456" 5000))
  ∧ result (@confirmRecoveryAccount Demo.collaborators "mallory@evil.example" "123456"
              "newpw" Demo.rnd (Demo.world Demo.recovering 5000))
    = inl (ConflictException "Please wait 1 minutes before requesting again")
  ∧ user_findUnique "u-alice"
      (db (final (@confirmRecoveryAccount Demo.collaborators "mallory@evil.example" "123456"
                    "newpw" Demo.rnd (Demo.world Demo.recovering 5000))))
    = Some Demo.alice
  ∧ ¬ succeeds (@confirmRecoveryAccount Demo.collaborators "mallory@evil.example" "123456"
                  "newpw" Demo.rnd (Demo.world Demo.recovering 70000))
  ∧ user_findUnique "u-alice"
      (db (final (@confirmRecoveryAccount Demo.collaborators "mallory@evil.example" "123456"
                    "newpw" Demo.rnd (Demo.world Demo.recovering 70000))))
    = Some Demo.alice.
Proof.
  split_and!; try reflexivity.
  intros [message Hok]. vm_compute in Hok. discriminate Hok.
Qed.

(** ** recoveryAccount followed by confirmRecoveryAccount *)

Lemma find_app_last {A} (f : A → bool) (l : list A) (x : A) :
  (∀ y, y ∈ l → f y = false) → f x = true → List.find f (l ++ [x]) = Some x.
Proof.
  intros Hl Hx. induction l as [|a l IH]; simpl.
  - by rewrite Hx.
  - rewrite (Hl a) by left. apply IH. intros y Hy. apply Hl. by right.
Qed.

(** The world after [recoveryAccount] has issued the first recovery code
    of a user. *)
Lemma recoveryAccount_first_code `{Collaborators} (email : string) (rnd : Entropy)
    (w : World) (user : User.t) :
  storeDown w = false →
  user_findFirst_primaryEmail email (db w) = Some user →
  code_findFirst_key RECOVERY (User.id user) (db w) = None →
  recoveryAccount email rnd w
  = (log (EmailSent (ResetPasswordAccount email (String_of (generatedCode rnd))))
       (log (DbWrite "code.upsert")
          (set_db (mkDb (users (db w))
                        (codes (db w)
                         ++ [Code.mk [String_of (generatedCode rnd)]
                                     (Some (clock w + MAXINUM_AVAILABLE_TIME))
                                     RECOVERY (User.id user) (clock w) (Some (clock w))])
                        (sessions (db w))) w)),
     inr "Send recovery email successful").
Proof.
  intros Hup Hfind Hnone. unfold recoveryAccount, usersService_findPrimaryUserByEmail.
  rewrite (run_bind _ _ _ _ _ (run_prisma_read _ _ Hup)), Hfind.
  rewrite (run_bind Date_now _ w w (clock w) eq_refl).
  erewrite (run_bind (prisma_write _ _)); [done|].
  apply run_prisma_write; [done|].
  unfold code_upsert. rewrite existsb_find.
  unfold code_findFirst_key in Hnone. rewrite Hnone.
  rewrite bool_decide_eq_false_2; [done|]. by intros [? ?].
Qed.

(** C2, as the code has it.  When [recoveryAccount] issues the first
    recovery code [c] of a user, no other row holding [c], a
    [confirmRecoveryAccount] with [c] made less than 60 seconds later throws
    Conflict and leaves the tables, the password hash among them, as
    [recoveryAccount] left them. *)
Theorem recoveryAccount_then_confirm_conflict `{Collaborators}
    (email newPassword : string) (rnd rnd' : Entropy) (w : World) (user : User.t) (later : Z) :
  storeDown w = false →
  user_findFirst_primaryEmail email (db w) = Some user →
  code_findFirst_key RECOVERY (User.id user) (db w) = None →
  (∀ row, row ∈ codes (db w) → String_of (generatedCode rnd) ∉ Code.tokens row) →
  0 ≤ later < 60000 →
  result (recoveryAccount email rnd w) = inr "Send recovery email successful"
  ∧ code_findFirst_key RECOVERY (User.id user) (db (final (recoveryAccount email rnd w)))
    = Some (Code.mk [String_of (generatedCode rnd)] (Some (clock w + 5 * 60000))
                    RECOVERY (User.id user) (clock w) (Some (clock w)))
  ∧ result (confirmRecoveryAccount email (String_of (generatedCode rnd)) newPassword rnd'
              (advance later (final (recoveryAccount email rnd w))))
    = inl (ConflictException "Please wait 1 minutes before requesting again")
  ∧ users (db (final (confirmRecoveryAccount email (String_of (generatedCode rnd))
                        newPassword rnd'
                        (advance later (final (recoveryAccount email rnd w))))))
    = users (db w).
Proof.
  intros Hup Hfind Hnone Hfresh Hlater.
  rewrite (recoveryAccount_first_code _ _ _ _ Hup Hfind Hnone).
  set (row := Code.mk _ _ _ _ _ _).
  set (w1 := advance later _).
  assert (confirmRecoveryAccount email (String_of (generatedCode rnd)) newPassword rnd' w1
          = (w1, inl (ConflictException "Please wait 1 minutes before requesting again")))
    as Hconfirm.
  { apply confirmRecoveryAccount_conflict with (row := row); [done| |].
    - unfold code_findFirst_has. simpl. apply find_app_last.
      + intros r Hr. apply bool_decide_eq_false. by apply Hfresh.
      + apply bool_decide_eq_true. simpl. by left.
    - simpl. unfold MIN_TIME_TO_REQUEST. lia. }
  rewrite Hconfirm. split_and!; try done.
  unfold code_findFirst_key. simpl. apply find_app_last.
  - intros r Hr. unfold code_findFirst_key in Hnone.
    by apply (List.find_none _ _ Hnone), list_elem_of_In.
  - unfold code_has_key. simpl. by rewrite !bool_decide_eq_true_2.
Qed.

Lemma recoveryAccount_then_confirm_conflict_witness :
  result (@confirmRecoveryAccount Demo.collaborators "a@x.com" "123456" "newpw" Demo.rnd
            (advance 0 (final (recoveryAccount "a@x.com" Demo.rnd
                                 Demo.registered))))
  = inl (ConflictException "Please wait 1 minutes before requesting again").
Proof.
  apply (recoveryAccount_then_confirm_conflict (H := Demo.collaborators)
           "a@x.com" "newpw" Demo.rnd Demo.rnd Demo.registered Demo.alice 0);
    [reflexivity|reflexivity|reflexivity| |lia].
  intros row Hrow. by apply elem_of_nil in Hrow.
Defined.

(** C2 fails as stated: on a fresh account, [recoveryAccount] issues the
    code [123456] and the [confirmRecoveryAccount] that follows at once
    does not succeed and does not change the stored hash. *)
Lemma recoveryAccount_then_confirm_counterexample :
  result (recoveryAccount "a@x.com" Demo.rnd Demo.registered)
  = inr "Send recovery email successful"
  ∧ codes (db (final (recoveryAccount "a@x.com" Demo.rnd Demo.registered)))
    = [Code.mk ["123456"] (Some 305000) RECOVERY "u-alice" 5000 (Some 5000)]
  ∧ ¬ succeeds (@confirmRecoveryAccount Demo.collaborators "a@x.com" "123456" "newpw" Demo.rnd
                  (final (recoveryAccount "a@x.com" Demo.rnd
                            Demo.registered)))
  ∧ user_findUnique "u-alice"
      (db (final (@confirmRecoveryAccount Demo.collaborators "a@x.com" "123456" "newpw"
                    Demo.rnd
                    (final (recoveryAccount "a@x.com" Demo.rnd
                              Demo.registered)))))
    = Some Demo.alice.
Proof.
  split_and!; [reflexivity|reflexivity| |reflexivity].
  intros [a Ha]. vm_compute in Ha. discriminate Ha.
Qed.

(** ** validate *)

Lemma session_findFirst_active_Some userId d s :
  session_findFirst_active userId d = Some s →
  s ∈ sessions d ∧ Session.userId s = userId ∧ Session.revoked s = false.
Proof.
  intros Hfind. apply find_some_elem_of in Hfind as [Hin Hs].
  apply andb_true_iff in Hs as [Hu Hr].
  apply bool_decide_eq_true in Hu. apply negb_true_iff in Hr. done.
Qed.

Lemma session_findFirst_active_None userId d s :
  session_findFirst_active userId d = None →
  s ∈ sessions d → Session.userId s = userId → Session.revoked s = true.
Proof.
  intros Hfind Hin Hu.
  pose proof (List.find_none _ _ Hfind s (proj1 (list_elem_of_In _ _) Hin)) as Hs.
  simpl in Hs. rewrite bool_decide_eq_true_2 in Hs by done.
  simpl in Hs. by apply negb_false_iff in Hs.
Qed.

Lemma user_findUnique_id id d u : user_findUnique id d = Some u → User.id u = id.
Proof.
  intros Hfind. apply find_some_elem_of in Hfind as [_ Hid].
  by apply bool_decide_eq_true in Hid.
Qed.

Ltac not_accepted :=
  intros ?; split;
  [done|intros (? & ? & ? & ? & ? & ? & ? & ? & _); congruence].

Lemma validate_cases `{Collaborators} (accessToken : string) (w : World) :
  final (validate accessToken w) = w
  ∧ (∀ user, result (validate accessToken w) = inr user ↔ accepted accessToken w user)
  ∧ ((∃ user, result (validate accessToken w) = inr user)
     ∨ ∃ message, result (validate accessToken w) = inl (UnauthorizedException message)).
Proof.
  unfold accepted, validate, try_catch, configService_getOrThrow, jwtService_verify,
    prisma_user_findUnique.
  run_service.
  destruct (config w !! "JWT_SECRET") as [secret|] eqn:Hsecret; simpl;
    [|split_and!; [done|not_accepted|right; by eexists]].
  destruct (jwtService_verifyAsync accessToken secret) as [payload|] eqn:Hverify; simpl;
    [|split_and!; [done|not_accepted|right; by eexists]].
  destruct (sub payload) as [id|] eqn:Hsub; simpl;
    [|split_and!; [done|not_accepted|right; by eexists]].
  destruct (storeDown w) eqn:Hup; simpl;
    [split_and!; [done|not_accepted|right; by eexists]|].
  destruct (user_findUnique id (db w)) as [u|] eqn:Huser; simpl;
    [|split_and!; [done|not_accepted|right; by eexists]].
  rewrite Hup.
  destruct (session_findFirst_active (User.id u) (db w)) as [s|] eqn:Hactive; simpl.
  - split_and!; [done| |left; by eexists].
    intros user. split.
    + intros [= <-]. split; [done|]. exists secret, payload, id.
      split_and!; try done. exists s.
      by apply session_findFirst_active_Some in Hactive.
    + intros (_ & secret' & payload' & id' & ? & ? & ? & ? & _). by simplify_eq.
  - split_and!; [done| |right; by eexists].
    intros user. split; [done|].
    intros (_ & secret' & payload' & id' & ? & ? & ? & ? & s & Hin & Hs & Hlive).
    simplify_eq.
    by rewrite (session_findFirst_active_None _ _ _ Hactive Hin Hs) in Hlive.
Qed.

(** ** logout *)

(** [logout] with the id of a stored session as its argument. *)
Lemma logout_explicit (req : Request) (sid : string) (s : Session.t) (w : World) :
  storeDown w = false →
  sid ≠ "" →
  session_findFirst (Some sid) None (db w) = Some s →
  logout req (Some sid) w
  = (log (DbWrite "session.updateMany")
       (set_db (mkDb (users (db w)) (codes (db w))
                     (map (λ r, if session_where (Some sid) (Some (Session.userId s)) r
                                then revoke r else r) (sessions (db w))))
               (log (ClearCookie "refresh_token") (log (ClearCookie "access_token") w))),
     inr "Logout successful").
Proof.
  intros Hup Hsid Hfind. unfold logout. run_service.
  rewrite Hup, Hfind. simpl.
  destruct sid as [|c sid]; [done|]. simpl. by rewrite Hup.
Qed.

Lemma session_findFirst_id sid d s :
  session_findFirst (Some sid) None d = Some s → s ∈ sessions d ∧ Session.id s = sid.
Proof.
  intros Hfind. apply find_some_elem_of in Hfind as [Hin Hs].
  unfold session_where in Hs. rewrite andb_true_r in Hs.
  by apply bool_decide_eq_true in Hs.
Qed.

(** C5.  [validate] changes nothing and ends either with the user or with
    Unauthorized, whatever goes wrong, a store that cannot be reached
    included.  It returns the user exactly when the token verifies, the
    user its [sub] names exists and one of that user's sessions is not
    revoked.  So once [logout] has revoked the only session of a user, a
    token that names this user is refused with Unauthorized. *)
Theorem validate_user_or_unauthorized `{Collaborators} (accessToken : string) (w : World) :
  final (validate accessToken w) = w
  ∧ (∀ user, result (validate accessToken w) = inr user ↔ accepted accessToken w user)
  ∧ ((∃ user, result (validate accessToken w) = inr user)
     ∨ ∃ message, result (validate accessToken w) = inl (UnauthorizedException message))
  ∧ (∀ req sid s secret payload,
       storeDown w = false →
       sid ≠ "" →
       session_findFirst (Some sid) None (db w) = Some s →
       (∀ s', s' ∈ sessions (db w) → Session.userId s' = Session.userId s →
              Session.id s' = sid) →
       config w !! "JWT_SECRET" = Some secret →
       jwtService_verifyAsync accessToken secret = Some payload →
       sub payload = Some (Session.userId s) →
       ∃ message, result (validate accessToken (final (logout req (Some sid) w)))
                  = inl (UnauthorizedException message)).
Proof.
  destruct (validate_cases accessToken w) as (Hfinal & Hiff & Hcases).
  split_and!; try done.
  intros req sid s secret payload Hup Hsid Hfind Honly Hsecret Hverify Hsub.
  rewrite (logout_explicit req sid s w Hup Hsid Hfind). unfold final. simpl.
  match goal with |- context [validate accessToken ?w1] => set (w' := w1) end.
  destruct (validate_cases accessToken w') as (_ & Hiff' & [[user Hok]|Hrefused]);
    [exfalso|done].
  apply Hiff' in Hok as (_ & secret' & payload' & id' & Hs' & Hv' & Hsub' & Huser & r' & Hin & Hr & Hlive).
  subst w'. simpl in *. simplify_eq.
  apply user_findUnique_id in Huser. simpl in Huser.
  apply list_elem_of_fmap in Hin as (r & -> & Hin).
  destruct (session_where (Some sid) (Some (Session.userId s)) r) eqn:Hwhere; [done|].
  assert (Session.id r = sid) as Hid by (apply Honly; [done|congruence]).
  unfold session_where in Hwhere.
  rewrite !bool_decide_eq_true_2 in Hwhere by congruence. done.
Qed.

Lemma validate_user_or_unauthorized_witness :
  result (@validate Demo.collaborators "jwt:u-bob" Demo.two_sessions) = inr Demo.bob
  ∧ ∃ message,
      result (@validate Demo.collaborators "jwt:u-bob"
                (final (logout Demo.browser_request (Some "s2") Demo.two_sessions)))
      = inl (UnauthorizedException message).
Proof.
  split.
  - apply (proj1 (proj2 (validate_user_or_unauthorized (H := Demo.collaborators)
                           "jwt:u-bob" Demo.two_sessions)) Demo.bob).
    split; [reflexivity|].
    exists "s3cret", (mkJwtPayload (Some "u-bob")), "u-bob".
    split_and!; try reflexivity.
    exists (Demo.session_of "s2" "u-bob" 20).
    split_and!; try reflexivity.
    apply list_elem_of_further, list_elem_of_here.
  - apply (proj2 (proj2 (proj2 (validate_user_or_unauthorized (H := Demo.collaborators)
                                  "jwt:u-bob" Demo.two_sessions)))
                 Demo.browser_request "s2" (Demo.session_of "s2" "u-bob" 20)
                 "s3cret" (mkJwtPayload (Some "u-bob")));
      try reflexivity; [done|].
    intros s' Hin Hu.
    apply elem_of_cons in Hin as [->|Hin]; [by vm_compute in Hu|].
    apply elem_of_cons in Hin as [->|Hin]; [reflexivity|].
    by apply elem_of_nil in Hin.
Defined.

Lemma revoke_idempotent s : revoke (revoke s) = revoke s.
Proof. done. Qed.

(** The explicit path: the row named by the argument ends revoked, with
    no refresh-token hash, also when it was revoked already. *)
Lemma logout_explicit_revokes (req : Request) (sid : string) (s : Session.t) (w : World) :
  storeDown w = false →
  sid ≠ "" →
  session_findFirst (Some sid) None (db w) = Some s →
  result (logout req (Some sid) w) = inr "Logout successful"
  ∧ session_findFirst (Some sid) None (db (final (logout req (Some sid) w)))
    = Some (revoke s).
Proof.
  intros Hup Hsid Hfind. rewrite (logout_explicit req sid s w Hup Hsid Hfind).
  split; [done|]. unfold final, session_findFirst. simpl.
  rewrite find_map_stable.
  - pose proof (session_findFirst_id _ _ _ Hfind) as [_ Hid].
    unfold session_findFirst in Hfind. rewrite Hfind. simpl.
    unfold session_where. by rewrite !bool_decide_eq_true_2.
  - intros r. by destruct (session_where (Some sid) (Some (Session.userId s)) r).
Qed.

Lemma session_findFirst_any d : session_findFirst None None d = head (sessions d).
Proof. unfold session_findFirst. by destruct (sessions d). Qed.

(** The cookie path: without an argument the lookup has no filter and
    returns the first row of the table, whose [userId] then restricts the
    update of the row the cookie names. *)
Lemma logout_by_cookie (req : Request) (sid : string) (w : World) :
  storeDown w = false →
  truthy (cookies_session_id req) = Some sid →
  logout req None w
  = (log (DbWrite "session.updateMany")
       (set_db (mkDb (users (db w)) (codes (db w))
                     (map (λ r, if session_where (Some sid)
                                     (Session.userId <$> head (sessions (db w))) r
                                then revoke r else r) (sessions (db w))))
               (log (ClearCookie "refresh_token") (log (ClearCookie "access_token") w))),
     inr "Logout successful").
Proof.
  intros Hup Hcookie. unfold logout. run_service.
  rewrite Hup, session_findFirst_any. unfold js_or. simpl.
  destruct (cookies_session_id req) as [[|c cookie]|]; simplify_eq/=.
  by rewrite Hup.
Qed.

(** C7, where the code departs from it.  Alice's session [s1] is the first
    row of the table and Bob's browser holds the cookie [session_id = s2];
    [logout] without an argument answers "Logout successful" and Bob's row
    is as it was, not revoked and with its refresh-token hash.  With no
    argument and no cookie the call throws NotFound. *)
Theorem logout_by_cookie_leaves_session :
  result (logout (Demo.returning_request "s2") None Demo.two_sessions)
  = inr "Logout successful"
  ∧ session_findFirst (Some "s2") None
      (db (final (logout (Demo.returning_request "s2") None Demo.two_sessions)))
    = Some (Demo.session_of "s2" "u-bob" 20)
  ∧ Session.revoked (Demo.session_of "s2" "u-bob" 20) = false
  ∧ result (logout Demo.browser_request None Demo.two_sessions)
    = inl (NotFoundException "Session ID is required for logout").
Proof. by vm_compute. Qed.

(** ** login: the notification *)

(** Once the credentials are accepted, the mail goes out exactly when
    [detectDevice] finds a session of the user with this address and device;
    the session is created afterwards. *)
Lemma login_notification `{Collaborators} (data : LoginDto.t) (req : Request)
    (rnd : Entropy) (w : World) (user : User.t) :
  storeDown w = false →
  user_findFirst_primaryEmail (LoginDto.email data) (db w) = Some user →
  argon2_verify (User.hashedPassword user) (LoginDto.password data) = true →
  login data req rnd w
  = (session <- createSession (User.id user) req rnd ;;
     ret (mkResponse "Login successful" (UserWithoutPassword.of_user user)))
      (match session_findFirst_device (User.id user) (extractIp req)
               (getDeviceName (default "Unknown" (truthy (header_user_agent req)))) (db w) with
       | Some _ =>
           log (EmailSent (DetectOtherDevice
                             (Email.value (User.primaryEmail user)) (extractIp req)
                             (default "Unknown" (truthy (header_user_agent req)))
                             (getDeviceName (default "Unknown" (truthy (header_user_agent req))))))
               w
       | None => w
       end).
Proof.
  intros Hup Hfind Hverify. unfold login.
  rewrite (run_bind _ _ _ _ _ (run_prisma_read _ _ Hup)), Hfind, Hverify. simpl.
  unfold detectDevice.
  rewrite (run_bind _ _ _ _ _ (run_prisma_read _ _ Hup)).
  by destruct (session_findFirst_device _ _ _ _).
Qed.

(** C1, where the code departs from it.  Alice has no session row and
    signs in from Firefox on Linux at 10.0.0.7: the session is created and
    no mail is sent.  When she has the session [s1] from this very address
    and device and signs in again, the "new device" mail is sent. *)
Theorem login_notifies_known_device_only :
  getDeviceName (H := Demo.collaborators) Demo.firefox_ua = "Firefox on Linux"
  ∧ getDeviceName (H := Demo.collaborators) "curl/8.5.0" = "Unknown browser on Unknown OS"
  ∧ session_findFirst_device "u-alice" "10.0.0.7" "Firefox on Linux" (db Demo.registered)
    = None
  ∧ trace (final (@login Demo.collaborators (LoginDto.mk "a@x.com" "pw1")
                    Demo.browser_request Demo.rnd Demo.registered))
    = [DbWrite "session.create";
       SetCookie "session_id" "s-new" 315360000000 false;
       SetCookie "refresh_token" "refresh:u-alice" 3600000 true;
       SetCookie "access_token" "jwt:u-alice" 604800000 true]
  ∧ session_findFirst_device "u-alice" "10.0.0.7" "Firefox on Linux" (db Demo.two_sessions)
    = Some (Demo.session_of "s1" "u-alice" 10)
  ∧ trace (final (@login Demo.collaborators (LoginDto.mk "a@x.com" "pw1")
                    (Demo.returning_request "s1") Demo.rnd Demo.two_sessions))
    = [EmailSent (DetectOtherDevice "a@x.com" "10.0.0.7" Demo.firefox_ua "Firefox on Linux");
       DbWrite "session.update";
       SetCookie "session_id" "s1" 315360000000 false;
       SetCookie "refresh_token" "refresh:u-alice" 3600000 true;
       SetCookie "access_token" "jwt:u-alice" 604800000 true].
Proof. by vm_compute. Qed.

(** ** registerUser *)

Lemma find_is_Some {A} (f : A → bool) (l : list A) (x : A) :
  x ∈ l → f x = true → is_Some (List.find f l).
Proof.
  intros Hin Hx. destruct (List.find f l) eqn:Hfind; [by eexists|].
  apply list_elem_of_In in Hin. by rewrite (List.find_none _ _ Hfind x Hin) in Hx.
Qed.

(** C9.  [registerUser] throws Conflict when an account has the address as
    primary email.  Otherwise, the identifiers drawn being new, it appends
    the user with the generated profile identifier and the hash of the
    password, and returns that row, hash included; a second registration of
    the same address then throws Conflict. *)
Theorem registerUser_conflict_or_create `{Collaborators} (body : RegisterUser.t)
    (rnd : Entropy) (w : World) :
  storeDown w = false →
  (∀ u, u ∈ users (db w) →
        Email.value (User.primaryEmail u) = RegisterUser.email body →
        registerUser body rnd w
        = (w, inl (ConflictException "This email has been registered")))
  ∧ ((∀ u, u ∈ users (db w) →
           Email.value (User.primaryEmail u) ≠ RegisterUser.email body
           ∧ User.id u ≠ uuid_user rnd
           ∧ User.profileId u ≠ snowflake rnd
           ∧ Email.id (User.primaryEmail u) ≠ uuid_email rnd) →
     registerUser body rnd w
     = (log (DbWrite "user.create")
          (set_db (mkDb (users (db w) ++ [registered_user body rnd (clock w)])
                        (codes (db w)) (sessions (db w))) w),
        inr (mkResponse "Register successful" (registered_user body rnd (clock w))))
     ∧ User.profileId (registered_user body rnd (clock w)) = snowflake rnd
     ∧ User.hashedPassword (registered_user body rnd (clock w))
       = hashing rnd (RegisterUser.password body)
     ∧ ∀ body' rnd',
         RegisterUser.email body' = RegisterUser.email body →
         result (registerUser body' rnd' (final (registerUser body rnd w)))
         = inl (ConflictException "This email has been registered")).
Proof.
  intros Hup. split.
  - intros u Hin Hemail. unfold registerUser, usersService_findPrimaryUserByEmail.
    rewrite (run_bind _ _ _ _ _ (run_prisma_read _ _ Hup)).
    destruct (find_is_Some
                (λ v, bool_decide (Email.value (User.primaryEmail v) = RegisterUser.email body))
                (users (db w)) u Hin) as [found Hfound];
      [by apply bool_decide_eq_true|].
    unfold user_findFirst_primaryEmail. by rewrite Hfound.
  - intros Hnew.
    assert (registerUser body rnd w
            = (log (DbWrite "user.create")
                 (set_db (mkDb (users (db w) ++ [registered_user body rnd (clock w)])
                               (codes (db w)) (sessions (db w))) w),
               inr (mkResponse "Register successful" (registered_user body rnd (clock w)))))
      as Hrun.
    { unfold registerUser, usersService_findPrimaryUserByEmail.
      rewrite (run_bind _ _ _ _ _ (run_prisma_read _ _ Hup)).
      unfold user_findFirst_primaryEmail. rewrite find_none_elem_of.
      2: { intros u Hu. apply bool_decide_eq_false. by apply Hnew. }
      rewrite (run_bind Date_now _ w w (clock w) eq_refl).
      erewrite (run_bind (prisma_write _ _)); [done|].
      apply run_prisma_write; [done|].
      unfold user_create. rewrite existsb_find, find_none_elem_of.
      - by rewrite bool_decide_eq_false_2 by by intros [? ?].
      - intros u Hu. destruct (Hnew u Hu) as (_ & Hid & Hprofile & Hmail). simpl.
        by rewrite !bool_decide_eq_false_2. }
    rewrite Hrun. split_and!; try done.
    intros body' rnd' Hsame. unfold final, registerUser, usersService_findPrimaryUserByEmail.
    simpl. erewrite run_bind; [|by apply run_prisma_read].
    unfold user_findFirst_primaryEmail. simpl. rewrite Hsame.
    rewrite (find_app_last _ _ (registered_user body rnd (clock w))); [done| |].
    + intros u Hu. apply bool_decide_eq_false. by apply Hnew.
    + by apply bool_decide_eq_true.
Qed.

Lemma registerUser_conflict_or_create_witness :
  result (@registerUser Demo.collaborators Demo.carol_form Demo.rnd Demo.registered)
  = inr (mkResponse "Register successful"
           (User.mk "u-new" "p-new" 5000 ACTIVE (Email.mk "e-new" "c@x.com" EVERYONE)
                    "$argon2id$pw3" "Carol" OTHER 0))
  ∧ result (@registerUser Demo.collaborators Demo.carol_form Demo.rnd
              (final (@registerUser Demo.collaborators Demo.carol_form Demo.rnd
                        Demo.registered)))
    = inl (ConflictException "This email has been registered").
Proof.
  assert (∀ u, u ∈ users (db Demo.registered) →
               Email.value (User.primaryEmail u) ≠ RegisterUser.email Demo.carol_form
               ∧ User.id u ≠ uuid_user Demo.rnd
               ∧ User.profileId u ≠ snowflake Demo.rnd
               ∧ Email.id (User.primaryEmail u) ≠ uuid_email Demo.rnd) as Hnew.
  { intros u Hu. simpl in Hu.
    apply elem_of_cons in Hu as [->|Hu]; [by vm_compute|].
    apply elem_of_cons in Hu as [->|Hu]; [by vm_compute|].
    by apply elem_of_nil in Hu. }
  destruct (proj2 (registerUser_conflict_or_create (H := Demo.collaborators)
                     Demo.carol_form Demo.rnd Demo.registered eq_refl) Hnew)
    as (Hrun & _ & _ & Hagain).
  split.
  - by rewrite Hrun.
  - by apply Hagain.
Defined.

(** ** changePassword *)

Lemma user_update_password id hashedPassword d u :
  user_findUnique id d = Some u →
  user_update id hashedPassword None d
  = inr (mkDb (users_with_password id hashedPassword d) (codes d) (sessions d),
         User.with_hashedPassword hashedPassword u).
Proof. intros Huser. unfold user_update. by rewrite Huser. Qed.

(** C10.  A [changePassword] call succeeds exactly when the request carries
    a user id, that user exists and the old password verifies.  Then the old
    password, as given, is put in Redis under the user id with a time to
    live of 30 days, and this before the new hash is written to the user's
    row. *)
Theorem changePassword_keeps_old_password `{Collaborators} (data : ChangePasswordDto.t)
    (req : Request) (rnd : Entropy) (w : World) :
  storeDown w = false →
  (succeeds (changePassword data req rnd w) ↔
     ∃ id user,
       truthy (user_id req) = Some id
       ∧ user_findUnique id (db w) = Some user
       ∧ argon2_verify (User.hashedPassword user) (ChangePasswordDto.oldPassword data) = true)
  ∧ (∀ id user,
       truthy (user_id req) = Some id →
       user_findUnique id (db w) = Some user →
       argon2_verify (User.hashedPassword user) (ChangePasswordDto.oldPassword data) = true →
       redis (final (changePassword data req rnd w))
       = <[id := (ChangePasswordDto.oldPassword data, 30 * 24 * 60 * 60)]> (redis w)
       ∧ trace (final (changePassword data req rnd w))
         = (trace w
            ++ [RedisSet id (ChangePasswordDto.oldPassword data) (30 * 24 * 60 * 60);
                DbWrite "user.update";
                EmailSent (NotificationResetPassword (Email.value (User.primaryEmail user)))])%list
       ∧ user_findUnique id (db (final (changePassword data req rnd w)))
         = Some (User.with_hashedPassword
                   (hashing rnd (ChangePasswordDto.newPassword data)) user)).
Proof.
  intros Hup.
  assert (∀ id user,
            truthy (user_id req) = Some id →
            user_findUnique id (db w) = Some user →
            argon2_verify (User.hashedPassword user) (ChangePasswordDto.oldPassword data) = true →
            changePassword data req rnd w
            = (log (EmailSent (NotificationResetPassword (Email.value (User.primaryEmail user))))
                 (log (DbWrite "user.update")
                    (set_db (mkDb (users_with_password id
                                     (hashing rnd (ChangePasswordDto.newPassword data)) (db w))
                                  (codes (db w)) (sessions (db w)))
                       (log (RedisSet id (ChangePasswordDto.oldPassword data) MAX_TIME_SAVE)
                          (set_redis (<[id := (ChangePasswordDto.oldPassword data, MAX_TIME_SAVE)]>
                                        (redis w)) w)))),
               inr (mkResponse "Change Password successful"
                      (UserWithoutPassword.of_user
                         (User.with_hashedPassword
                            (hashing rnd (ChangePasswordDto.newPassword data)) user)))))
    as Hrun.
  { intros id user Hid Huser Hverify. unfold changePassword. rewrite Hid.
    rewrite (run_bind _ _ _ _ _ (run_prisma_read _ _ Hup)), Huser, Hverify. simpl.
    unfold redisService_set at 1. unfold bind at 1.
    erewrite (run_bind (prisma_write _ _)).
    2: { apply run_prisma_write; [done|]. simpl. by apply user_update_password. }
    done. }
  split.
  - split.
    + intros [resp Hresp]. unfold changePassword in Hresp.
      destruct (truthy (user_id req)) as [id|] eqn:Hid; [|done].
      rewrite (run_bind _ _ _ _ _ (run_prisma_read _ _ Hup)) in Hresp.
      destruct (user_findUnique id (db w)) as [user|] eqn:Huser; [|done].
      destruct (argon2_verify (User.hashedPassword user)
                              (ChangePasswordDto.oldPassword data)) eqn:Hverify; [|done].
      by exists id, user.
    + intros (id & user & Hid & Huser & Hverify).
      rewrite (Hrun id user Hid Huser Hverify). by eexists.
  - intros id user Hid Huser Hverify. rewrite (Hrun id user Hid Huser Hverify).
    unfold final. simpl. split_and!; [done| |by apply user_findUnique_updated].
    by rewrite <- !app_assoc.
Qed.

Lemma changePassword_keeps_old_password_witness :
  redis (final (@changePassword Demo.collaborators (ChangePasswordDto.mk "pw1" "pw1-new")
                  (Demo.authenticated_request "u-alice") Demo.rnd Demo.registered))
  !! "u-alice"
  = Some ("pw1", 2592000).
Proof.
  destruct (proj2 (changePassword_keeps_old_password (H := Demo.collaborators)
                     (ChangePasswordDto.mk "pw1" "pw1-new")
                     (Demo.authenticated_request "u-alice") Demo.rnd Demo.registered eq_refl)
                  "u-alice" Demo.alice eq_refl eq_refl eq_refl) as (Hredis & _ & _).
  rewrite Hredis. apply lookup_insert_eq.
Defined.

(** * Further properties of the service *)

(** ** extractIp *)

Lemma split_comma_0_segment (first tail : string) :
  ","%char ∉ String.list_ascii_of_string first →
  tail = "" ∨ (∃ rest, tail = String "," rest) →
  split_comma_0 (first ++ tail) = first.
Proof.
  intros Hfree Htail. induction first as [|c first IH]; simpl in *.
  - by destruct Htail as [->|[rest ->]].
  - rewrite bool_decide_eq_false_2.
    + f_equal. apply IH. intros Hin. apply Hfree. by right.
    + intros ->. apply Hfree. by left.
Qed.

(** X1.  When the [X-Forwarded-For] header is there and its first
    comma-separated entry is not empty, [extractIp] is that entry, as sent
    (nothing is trimmed), whatever the address of the socket is. *)
Theorem extractIp_forwarded_first (req : Request) (first tail : string) :
  header_x_forwarded_for req = Some (first ++ tail) →
  tail = "" ∨ (∃ rest, tail = String "," rest) →
  ","%char ∉ String.list_ascii_of_string first →
  first ≠ "" →
  extractIp req = first.
Proof.
  intros Hheader Htail Hfree Hfirst. unfold extractIp. rewrite Hheader. simpl.
  rewrite (split_comma_0_segment first tail Hfree Htail).
  unfold js_or. by destruct first.
Qed.

Lemma extractIp_forwarded_first_witness :
  extractIp (mkRequest (Some "203.0.113.9, 10.0.0.1") None (Some "10.0.0.7") None None)
  = "203.0.113.9".
Proof.
  apply (extractIp_forwarded_first _ "203.0.113.9" ", 10.0.0.1"); [reflexivity| | |done].
  - right. by eexists.
  - apply (bool_decide_unpack _). by vm_compute.
Defined.

(** X2.  Without the header, or when the header is empty or begins with a
    comma, [extractIp] is the address of the socket, and the empty string
    when the socket has none. *)
Theorem extractIp_socket_fallback (req : Request) :
  header_x_forwarded_for req = None
  ∨ header_x_forwarded_for req = Some ""
  ∨ (∃ rest, header_x_forwarded_for req = Some (String "," rest)) →
  extractIp req = default "" (socket_remoteAddress req).
Proof.
  intros Hheader. unfold extractIp.
  assert (truthy (split_comma_0 <$> header_x_forwarded_for req) = None) as Hfalsy.
  { by destruct Hheader as [->|[->|[rest ->]]]. }
  unfold js_or at 2. rewrite Hfalsy. unfold js_or.
  by destruct (socket_remoteAddress req) as [[|c address]|].
Qed.

Lemma extractIp_socket_fallback_witness :
  extractIp (mkRequest (Some ",203.0.113.9") None (Some "10.0.0.7") None None) = "10.0.0.7"
  ∧ extractIp (mkRequest None None None None None) = "".
Proof.
  split.
  - apply (extractIp_socket_fallback (mkRequest (Some ",203.0.113.9") None (Some "10.0.0.7")
                                                 None None)).
    right. right. by eexists.
  - apply (extractIp_socket_fallback (mkRequest None None None None None)). by left.
Defined.

(** ** detectDevice *)

Lemma newest_from (l : list Session.t) (best : option Session.t) :
  match fold_left newer l best with
  | None => best = None ∧ l = []
  | Some s =>
      (best = Some s ∨ s ∈ l)
      ∧ (∀ b, best = Some b → Session.createdAt b ≤ Session.createdAt s)
      ∧ (∀ r, r ∈ l → Session.createdAt r ≤ Session.createdAt s)
  end.
Proof.
  revert best. induction l as [|a l IH]; intros best; simpl.
  - destruct best as [b|]; [|done]. split_and!; [by left| |].
    + by intros ? [= <-].
    + intros r Hr. by apply elem_of_nil in Hr.
  - specialize (IH (newer best a)).
    destruct (fold_left newer l (newer best a)) as [s|].
    + destruct IH as (Hwhere & Hbest & Hrest).
      assert (Session.createdAt a ≤ Session.createdAt s) as Ha.
      { destruct best as [b|]; simpl in *.
        - destruct (Z.ltb_spec (Session.createdAt b) (Session.createdAt a)).
          + by apply Hbest.
          + specialize (Hbest b eq_refl). lia.
        - by apply Hbest. }
      split_and!.
      * destruct Hwhere as [Hnew|Hin]; [|right; by right].
        destruct best as [b|]; simpl in Hnew.
        -- destruct (Session.createdAt b <? Session.createdAt a).
           ++ injection Hnew as <-. right. by left.
           ++ by left.
        -- injection Hnew as <-. right. by left.
      * intros b ->. simpl in Hbest.
        destruct (Z.ltb_spec (Session.createdAt b) (Session.createdAt a)).
        -- specialize (Hbest a eq_refl). lia.
        -- by apply Hbest.
      * intros r Hr. apply elem_of_cons in Hr as [->|Hr]; [done|by apply Hrest].
    + destruct IH as [Hnone _]. by destruct best as [b|]; simpl in Hnone;
        [destruct (Session.createdAt b <? Session.createdAt a)|].
Qed.

(** X3.  [detectDevice] finds nothing exactly when the user has no session
    from this address and device; otherwise it returns one of those
    sessions, and none of them was created later. *)
Theorem detectDevice_most_recent (userId ip deviceName : string) (w : World) :
  storeDown w = false →
  ∃ found,
    detectDevice userId ip deviceName w = (w, inr found)
    ∧ (found = None ↔
         ∀ s, s ∈ sessions (db w) → ¬ same_device userId ip deviceName s)
    ∧ (∀ s, found = Some s →
         s ∈ sessions (db w)
         ∧ same_device userId ip deviceName s
         ∧ ∀ r, r ∈ sessions (db w) → same_device userId ip deviceName r →
                Session.createdAt r ≤ Session.createdAt s).
Proof.
  intros Hup. exists (session_findFirst_device userId ip deviceName (db w)).
  split; [by apply run_prisma_read|].
  unfold session_findFirst_device, newest.
  set (matches := λ s : Session.t,
         bool_decide (Session.userId s = userId)
         && bool_decide (Session.deviceName s = Some deviceName)
         && bool_decide (Session.ipAddress s = Some ip)).
  assert (∀ s, matches s = true ↔ same_device userId ip deviceName s) as Hmatches.
  { intros s. unfold matches, same_device.
    rewrite !andb_true_iff, !bool_decide_eq_true. tauto. }
  assert (∀ s, s ∈ List.filter matches (sessions (db w))
               ↔ s ∈ sessions (db w) ∧ same_device userId ip deviceName s) as Hfilter.
  { intros s. rewrite <- Hmatches, !list_elem_of_In. apply List.filter_In. }
  pose proof (newest_from (List.filter matches (sessions (db w))) None) as Hnewest.
  change (fold_left newer (List.filter matches (sessions (db w))) None)
    with (fold_left (λ best s,
                       match best with
                       | None => Some s
                       | Some b => if Session.createdAt b <? Session.createdAt s
                                   then Some s else Some b
                       end) (List.filter matches (sessions (db w))) None) in Hnewest.
  destruct (fold_left _ (List.filter matches (sessions (db w))) None) as [s|].
  - destruct Hnewest as ([?|Hin] & _ & Hlatest); [done|].
    apply Hfilter in Hin as [Hin Hs]. split.
    + split; [done|]. intros Hnone. by destruct (Hnone s Hin).
    + intros ? [= <-]. split_and!; [done..|].
      intros r Hr Hsame. apply Hlatest, Hfilter. done.
  - destruct Hnewest as [_ Hempty]. split; [|done].
    split; [|done]. intros _ s Hin Hs.
    assert (s ∈ List.filter matches (sessions (db w))) as Hs' by by apply Hfilter.
    rewrite Hempty in Hs'. by apply elem_of_nil in Hs'.
Qed.

Lemma detectDevice_most_recent_witness :
  ∃ found,
    detectDevice "u-alice" "10.0.0.7" "Firefox on Linux" Demo.two_sessions
    = (Demo.two_sessions, inr found)
    ∧ (found = None ↔
         ∀ s, s ∈ sessions (db Demo.two_sessions) →
              ¬ same_device "u-alice" "10.0.0.7" "Firefox on Linux" s)
    ∧ (∀ s, found = Some s →
         s ∈ sessions (db Demo.two_sessions)
         ∧ same_device "u-alice" "10.0.0.7" "Firefox on Linux" s
         ∧ ∀ r, r ∈ sessions (db Demo.two_sessions) →
                same_device "u-alice" "10.0.0.7" "Firefox on Linux" r →
                Session.createdAt r ≤ Session.createdAt s).
Proof.
  apply (detectDevice_most_recent "u-alice" "10.0.0.7" "Firefox on Linux" Demo.two_sessions).
  reflexivity.
Defined.

(** ** The one-time codes: code.upsert *)

Lemma find_map {A} (p : A → bool) (g : A → A) (l : list A) :
  List.find p (map g l) = g <$> List.find (λ x, p (g x)) l.
Proof.
  induction l as [|a l IH]; [done|]. simpl. by destruct (p (g a)).
Qed.

Lemma find_pointwise {A} (p q : A → bool) (l : list A) :
  (∀ x, x ∈ l → p x = q x) → List.find p l = List.find q l.
Proof.
  induction l as [|a l IH]; intros Hpq; [done|].
  simpl. rewrite (Hpq a) by left. rewrite IH; [done|].
  intros x Hx. apply Hpq. by right.
Qed.

Lemma find_app_skip {A} (f : A → bool) (l : list A) (x : A) :
  f x = false → List.find f (l ++ [x]) = List.find f l.
Proof.
  intros Hx. induction l as [|a l IH]; simpl; [by rewrite Hx|].
  by destruct (f a).
Qed.

Lemma code_has_key_true type userId c :
  code_has_key type userId c = true ↔ Code.type c = type ∧ Code.userId c = userId.
Proof. unfold code_has_key. by rewrite andb_true_iff, !bool_decide_eq_true. Qed.

Lemma code_has_key_false type userId c :
  code_has_key type userId c = false ↔ ¬ (Code.type c = type ∧ Code.userId c = userId).
Proof. rewrite <- code_has_key_true. by destruct (code_has_key type userId c). Qed.

(** What [code.upsert] does to the table, whichever branch it takes. *)
Lemma code_upsert_table type userId tokens expiresAt now d :
  ∃ cs,
    code_upsert type userId tokens expiresAt now d = inr (mkDb (users d) cs (sessions d), tt)
    ∧ List.find (code_has_key type userId) cs
      = Some (upserted_row type userId tokens expiresAt now d)
    ∧ (∀ type' userId', ¬ (type' = type ∧ userId' = userId) →
         List.find (code_has_key type' userId') cs
         = List.find (code_has_key type' userId') (codes d))
    ∧ (NoDup (code_keys d) → NoDup (map (λ c, (Code.userId c, Code.type c)) cs))
    ∧ (∀ code, code ∈ tokens →
         (∀ row, row ∈ codes d → code ∉ Code.tokens row) →
         List.find (λ c, bool_decide (code ∈ Code.tokens c)) cs
         = Some (upserted_row type userId tokens expiresAt now d)).
Proof.
  unfold code_upsert, upserted_row, code_findFirst_key. rewrite existsb_find.
  destruct (List.find (code_has_key type userId) (codes d)) as [old|] eqn:Hold.
  - rewrite bool_decide_eq_true_2 by by eexists.
    set (g := λ c, if code_has_key type userId c
                   then Code.mk tokens (Some expiresAt) type userId (Code.createdAt c) (Some now)
                   else c).
    assert (∀ c, Code.type (g c) = Code.type c ∧ Code.userId (g c) = Code.userId c) as Hkey.
    { intros c. unfold g. destruct (code_has_key type userId c) eqn:Hc; [|done].
      by apply code_has_key_true in Hc as [-> ->]. }
    assert (∀ type' userId' c, code_has_key type' userId' (g c) = code_has_key type' userId' c)
      as Hstable.
    { intros type' userId' c. unfold code_has_key.
      by destruct (Hkey c) as [-> ->]. }
    pose proof (find_some_elem_of _ _ _ Hold) as [_ Hold_key].
    eexists. split_and!; [done| | | |].
    + rewrite find_map_stable by apply Hstable. rewrite Hold. simpl.
      unfold g. by rewrite Hold_key.
    + intros type' userId' Hother. rewrite find_map_stable by apply Hstable.
      destruct (List.find (code_has_key type' userId') (codes d)) as [r|] eqn:Hr; [|done].
      simpl. f_equal. unfold g.
      apply find_some_elem_of in Hr as [_ Hr]. apply code_has_key_true in Hr as [<- <-].
      rewrite (proj2 (code_has_key_false type userId r)); [done|].
      intros [? ?]. by apply Hother.
    + intros Hnodup. unfold code_keys in Hnodup. rewrite map_map.
      erewrite map_ext; [done|]. intros c. simpl. by destruct (Hkey c) as [-> ->].
    + intros code Hcode Hfresh. rewrite find_map.
      rewrite (find_pointwise _ (code_has_key type userId)).
      * rewrite Hold. simpl. unfold g. by rewrite Hold_key.
      * intros r Hr. unfold g. destruct (code_has_key type userId r); simpl.
        -- by apply bool_decide_eq_true.
        -- apply bool_decide_eq_false. by apply Hfresh.
  - rewrite bool_decide_eq_false_2 by by intros [? ?].
    eexists. split_and!; [done| | | |].
    + apply find_app_last.
      * intros r Hr. by apply (List.find_none _ _ Hold), list_elem_of_In.
      * by apply code_has_key_true.
    + intros type' userId' Hother. apply find_app_skip.
      apply code_has_key_false. simpl. intros [<- <-]. by apply Hother.
    + intros Hnodup. rewrite map_app. simpl. apply NoDup_app. split_and!.
      * done.
      * intros key Hkey Hnew. apply list_elem_of_singleton in Hnew as ->.
        apply list_elem_of_fmap in Hkey as (r & [= Hu Ht] & Hr).
        apply list_elem_of_In in Hr.
        pose proof (List.find_none _ _ Hold r Hr) as Hno.
        apply code_has_key_false in Hno. by apply Hno.
      * apply NoDup_singleton.
    + intros code Hcode Hfresh. apply find_app_last.
      * intros r Hr. apply bool_decide_eq_false. by apply Hfresh.
      * by apply bool_decide_eq_true.
Qed.

(** ** recoveryAccount and forgotPassword *)

Lemma recoveryAccount_run (email : string) (rnd : Entropy) (w : World) (user : User.t) d :
  storeDown w = false →
  user_findFirst_primaryEmail email (db w) = Some user →
  code_upsert RECOVERY (User.id user) [String_of (generatedCode rnd)]
              (clock w + MAXINUM_AVAILABLE_TIME) (clock w) (db w) = inr (d, tt) →
  recoveryAccount email rnd w
  = (log (EmailSent (ResetPasswordAccount email (String_of (generatedCode rnd))))
       (log (DbWrite "code.upsert") (set_db d w)),
     inr "Send recovery email successful").
Proof.
  intros Hup Hfind Hupsert. unfold recoveryAccount, usersService_findPrimaryUserByEmail.
  rewrite (run_bind _ _ _ _ _ (run_prisma_read _ _ Hup)), Hfind.
  rewrite (run_bind Date_now _ w w (clock w) eq_refl).
  by rewrite (run_bind _ _ _ _ _ (run_prisma_write _ _ _ _ _ Hup Hupsert)).
Qed.

Lemma forgotPassword_run (email : string) (rnd : Entropy) (w : World) (user : User.t) d :
  storeDown w = false →
  user_findFirst_primaryEmail email (db w) = Some user →
  code_upsert VERIFICATION (User.id user) [String_of (generatedCode rnd)]
              (clock w + MAXINUM_AVAILABLE_TIME) (clock w) (db w) = inr (d, tt) →
  forgotPassword email rnd w
  = (log (EmailSent (ResetPasswordAccount email (String_of (generatedCode rnd))))
       (log (DbWrite "code.upsert") (set_db d w)),
     inr "Send req forgot successful").
Proof.
  intros Hup Hfind Hupsert. unfold forgotPassword.
  rewrite (run_bind _ _ _ _ _ (run_prisma_read _ _ Hup)), Hfind.
  rewrite (run_bind Date_now _ w w (clock w) eq_refl).
  by rewrite (run_bind _ _ _ _ _ (run_prisma_write _ _ _ _ _ Hup Hupsert)).
Qed.

(** X4.  For an address that is the primary email of no account,
    [recoveryAccount] and [forgotPassword] throw NotFound; no code row is
    written and no mail is sent. *)
Theorem issue_code_unknown_email (email : string) (rnd : Entropy) (w : World) :
  storeDown w = false →
  (∀ u, u ∈ users (db w) → Email.value (User.primaryEmail u) ≠ email) →
  recoveryAccount email rnd w = (w, inl (NotFoundException "User is not found"))
  ∧ forgotPassword email rnd w = (w, inl (NotFoundException "Account is not exited")).
Proof.
  intros Hup Hnone.
  assert (user_findFirst_primaryEmail email (db w) = None) as Hfind.
  { apply find_none_elem_of. intros u Hu. apply bool_decide_eq_false. by apply Hnone. }
  split.
  - unfold recoveryAccount, usersService_findPrimaryUserByEmail.
    by rewrite (run_bind _ _ _ _ _ (run_prisma_read _ _ Hup)), Hfind.
  - unfold forgotPassword.
    by rewrite (run_bind _ _ _ _ _ (run_prisma_read _ _ Hup)), Hfind.
Qed.

Lemma issue_code_unknown_email_witness :
  recoveryAccount "nobody@x.com" Demo.rnd Demo.registered
  = (Demo.registered, inl (NotFoundException "User is not found"))
  ∧ forgotPassword "nobody@x.com" Demo.rnd Demo.registered
    = (Demo.registered, inl (NotFoundException "Account is not exited")).
Proof.
  apply (issue_code_unknown_email "nobody@x.com" Demo.rnd Demo.registered); [reflexivity|].
  intros u Hu. simpl in Hu.
  apply elem_of_cons in Hu as [->|Hu]; [by vm_compute|].
  apply elem_of_cons in Hu as [->|Hu]; [by vm_compute|].
  by apply elem_of_nil in Hu.
Defined.

(** X5.  For a known address, [forgotPassword] leaves exactly this under
    the user's VERIFICATION key: the new code as the only token, an expiry
    5 minutes ahead, and the creation time of the row it replaces, if it
    replaces one.  The rows under every other key, the users and the
    sessions are as they were, and the code is mailed to the address. *)
Theorem forgotPassword_replaces_code (email : string) (rnd : Entropy) (w : World)
    (user : User.t) :
  storeDown w = false →
  user_findFirst_primaryEmail email (db w) = Some user →
  result (forgotPassword email rnd w) = inr "Send req forgot successful"
  ∧ code_findFirst_key VERIFICATION (User.id user) (db (final (forgotPassword email rnd w)))
    = Some (upserted_row VERIFICATION (User.id user) [String_of (generatedCode rnd)]
                         (clock w + 5 * 60000) (clock w) (db w))
  ∧ (∀ type userId, ¬ (type = VERIFICATION ∧ userId = User.id user) →
       code_findFirst_key type userId (db (final (forgotPassword email rnd w)))
       = code_findFirst_key type userId (db w))
  ∧ users (db (final (forgotPassword email rnd w))) = users (db w)
  ∧ sessions (db (final (forgotPassword email rnd w))) = sessions (db w)
  ∧ trace (final (forgotPassword email rnd w))
    = (trace w ++ [DbWrite "code.upsert";
                   EmailSent (ResetPasswordAccount email (String_of (generatedCode rnd)))])%list.
Proof.
  intros Hup Hfind.
  destruct (code_upsert_table VERIFICATION (User.id user) [String_of (generatedCode rnd)]
              (clock w + MAXINUM_AVAILABLE_TIME) (clock w) (db w))
    as (cs & Hupsert & Hrow & Hothers & _ & _).
  rewrite (forgotPassword_run _ _ _ _ _ Hup Hfind Hupsert).
  unfold final, result, code_findFirst_key. simpl.
  split_and!; try done. by rewrite <- app_assoc.
Qed.

Lemma forgotPassword_replaces_code_witness :
  code_findFirst_key VERIFICATION "u-alice"
    (db (final (forgotPassword "a@x.com" Demo.rnd
                  (Demo.world Demo.recovering_verified 900000))))
  = Some (Code.mk ["123456"] (Some 1200000) VERIFICATION "u-alice" 4000 (Some 900000)).
Proof.
  destruct (forgotPassword_replaces_code "a@x.com" Demo.rnd
              (Demo.world Demo.recovering_verified 900000) Demo.alice eq_refl eq_refl)
    as (_ & Hrow & _).
  exact Hrow.
Defined.

(** X6.  [recoveryAccount] and [forgotPassword] keep the [Code] table
    keyed: when no two rows share a [(userId, type)] before the call, none
    do after it, whether the call succeeds or throws. *)
Theorem issue_code_keeps_keys_unique (email : string) (rnd : Entropy) (w : World) :
  NoDup (code_keys (db w)) →
  NoDup (code_keys (db (final (recoveryAccount email rnd w))))
  ∧ NoDup (code_keys (db (final (forgotPassword email rnd w)))).
Proof.
  intros Hnodup. split.
  - destruct (storeDown w) eqn:Hup.
    { unfold recoveryAccount, usersService_findPrimaryUserByEmail. run_service.
      by rewrite Hup. }
    destruct (user_findFirst_primaryEmail email (db w)) as [user|] eqn:Hfind.
    + destruct (code_upsert_table RECOVERY (User.id user) [String_of (generatedCode rnd)]
                  (clock w + MAXINUM_AVAILABLE_TIME) (clock w) (db w))
        as (cs & Hupsert & _ & _ & Hkeys & _).
      rewrite (recoveryAccount_run _ _ _ _ _ Hup Hfind Hupsert). by apply Hkeys.
    + unfold recoveryAccount, usersService_findPrimaryUserByEmail.
      by rewrite (run_bind _ _ _ _ _ (run_prisma_read _ _ Hup)), Hfind.
  - destruct (storeDown w) eqn:Hup.
    { unfold forgotPassword. run_service. by rewrite Hup. }
    destruct (user_findFirst_primaryEmail email (db w)) as [user|] eqn:Hfind.
    + destruct (code_upsert_table VERIFICATION (User.id user) [String_of (generatedCode rnd)]
                  (clock w + MAXINUM_AVAILABLE_TIME) (clock w) (db w))
        as (cs & Hupsert & _ & _ & Hkeys & _).
      rewrite (forgotPassword_run _ _ _ _ _ Hup Hfind Hupsert). by apply Hkeys.
    + unfold forgotPassword.
      by rewrite (run_bind _ _ _ _ _ (run_prisma_read _ _ Hup)), Hfind.
Qed.

Lemma issue_code_keeps_keys_unique_witness :
  NoDup (code_keys (db (final (recoveryAccount "a@x.com" Demo.rnd
                                 (Demo.world Demo.recovering_verified 900000)))))
  ∧ NoDup (code_keys (db (final (forgotPassword "a@x.com" Demo.rnd
                                   (Demo.world Demo.recovering_verified 900000))))).
Proof.
  apply (issue_code_keeps_keys_unique "a@x.com" Demo.rnd
           (Demo.world Demo.recovering_verified 900000)).
  apply (bool_decide_unpack _). by vm_compute.
Defined.

(** ** verifyTokenForgotPassword *)

(** X7.  [verifyTokenForgotPassword] throws NotFound when the user has no
    VERIFICATION row and Forbidden when the row does not hold the token;
    either way nothing is written. *)
Theorem verifyTokenForgotPassword_rejections `{Collaborators} (data : ForgotPasswordDto.t)
    (rnd : Entropy) (w : World) :
  storeDown w = false →
  (code_findFirst_key VERIFICATION (ForgotPasswordDto.userId data) (db w) = None →
   verifyTokenForgotPassword data rnd w
   = (w, inl (NotFoundException "Code is not available or expired")))
  ∧ (∀ row,
       code_findFirst_key VERIFICATION (ForgotPasswordDto.userId data) (db w) = Some row →
       ForgotPasswordDto.token data ∉ Code.tokens row →
       verifyTokenForgotPassword data rnd w
       = (w, inl (ForbiddenException "Code does not matched"))).
Proof.
  intros Hup. split.
  - intros Hnone. unfold verifyTokenForgotPassword.
    by rewrite (run_bind _ _ _ _ _ (run_prisma_read _ _ Hup)), Hnone.
  - intros row Hrow Htoken. unfold verifyTokenForgotPassword.
    rewrite (run_bind _ _ _ _ _ (run_prisma_read _ _ Hup)), Hrow.
    by rewrite bool_decide_eq_false_2.
Qed.

Lemma verifyTokenForgotPassword_rejections_witness :
  result (@verifyTokenForgotPassword Demo.collaborators
            (ForgotPasswordDto.mk "u-bob" "777777" "newpw" "b@x.com") Demo.rnd
            (Demo.world Demo.recovering_verified 70000))
  = inl (NotFoundException "Code is not available or expired")
  ∧ result (@verifyTokenForgotPassword Demo.collaborators
              (ForgotPasswordDto.mk "u-alice" "123456" "newpw" "a@x.com") Demo.rnd
              (Demo.world Demo.recovering_verified 70000))
    = inl (ForbiddenException "Code does not matched").
Proof.
  split.
  - by rewrite (proj1 (verifyTokenForgotPassword_rejections (H := Demo.collaborators)
                         (ForgotPasswordDto.mk "u-bob" "777777" "newpw" "b@x.com") Demo.rnd
                         (Demo.world Demo.recovering_verified 70000) eq_refl) eq_refl).
  - rewrite (proj2 (verifyTokenForgotPassword_rejections (H := Demo.collaborators)
                      (ForgotPasswordDto.mk "u-alice" "123456" "newpw" "a@x.com") Demo.rnd
                      (Demo.world Demo.recovering_verified 70000) eq_refl)
                   (Demo.code_row VERIFICATION "u-alice" "777777" 4000) eq_refl); [done|].
    intros Hin. by apply list_elem_of_singleton in Hin.
Defined.

Lemma find_filter_negb {A} (f : A → bool) (l : list A) :
  List.find f (List.filter (λ x, negb (f x)) l) = None.
Proof.
  induction l as [|a l IH]; [done|]. simpl.
  destruct (f a) eqn:Ha; simpl; [done|]. by rewrite Ha.
Qed.

Lemma verifyTokenForgotPassword_success `{Collaborators} (data : ForgotPasswordDto.t)
    (rnd : Entropy) (w : World) (row : Code.t) (u : User.t) :
  storeDown w = false →
  code_findFirst_key VERIFICATION (ForgotPasswordDto.userId data) (db w) = Some row →
  ForgotPasswordDto.token data ∈ Code.tokens row →
  user_findUnique (ForgotPasswordDto.userId data) (db w) = Some u →
  verifyTokenForgotPassword data rnd w
  = (log (EmailSent (NotificationResetPassword (ForgotPasswordDto.email data)))
       (log (DbWrite "user.update")
          (set_db (mkDb (users_with_password (ForgotPasswordDto.userId data)
                           (hashing rnd (ForgotPasswordDto.newPassword data)) (db w))
                        (List.filter
                           (λ c, negb (code_has_key VERIFICATION
                                         (ForgotPasswordDto.userId data) c))
                           (codes (db w)))
                        (sessions (db w))) w)),
     inr "Change password successful").
Proof.
  intros Hup Hrow Htoken Huser. unfold verifyTokenForgotPassword.
  rewrite (run_bind _ _ _ _ _ (run_prisma_read _ _ Hup)), Hrow.
  rewrite bool_decide_eq_true_2 by done. simpl.
  by rewrite (run_bind _ _ _ _ _
                (run_prisma_write _ _ _ _ _ Hup
                   (user_update_deleting _ _ _ _ _ _ Huser Hrow))).
Qed.

Lemma verifyTokenForgotPassword_forbidden `{Collaborators} (data : ForgotPasswordDto.t)
    (rnd : Entropy) (w : World) (row : Code.t) :
  storeDown w = false →
  code_findFirst_key VERIFICATION (ForgotPasswordDto.userId data) (db w) = Some row →
  ForgotPasswordDto.token data ∉ Code.tokens row →
  verifyTokenForgotPassword data rnd w
  = (w, inl (ForbiddenException "Code does not matched")).
Proof.
  intros Hup Hrow Htoken. unfold verifyTokenForgotPassword.
  rewrite (run_bind _ _ _ _ _ (run_prisma_read _ _ Hup)), Hrow.
  by rewrite bool_decide_eq_false_2.
Qed.

(** X8.  Only the code of the latest [forgotPassword] is good: once it has
    issued a code to a user, [verifyTokenForgotPassword] for that user with
    any other token, a code issued earlier included, throws Forbidden and
    changes no password. *)
Theorem forgotPassword_supersedes_codes `{Collaborators} (email : string)
    (rnd rnd' : Entropy) (w : World) (user : User.t) (data : ForgotPasswordDto.t)
    (later : Z) :
  storeDown w = false →
  user_findFirst_primaryEmail email (db w) = Some user →
  ForgotPasswordDto.userId data = User.id user →
  ForgotPasswordDto.token data ≠ String_of (generatedCode rnd) →
  result (verifyTokenForgotPassword data rnd'
            (advance later (final (forgotPassword email rnd w))))
  = inl (ForbiddenException "Code does not matched")
  ∧ users (db (final (verifyTokenForgotPassword data rnd'
                        (advance later (final (forgotPassword email rnd w))))))
    = users (db w)
  ∧ ∀ earlier : Z, earlier ≠ generatedCode rnd →
                   String_of earlier ≠ String_of (generatedCode rnd).
Proof.
  intros Hup Hfind Hid Htoken.
  destruct (code_upsert_table VERIFICATION (User.id user) [String_of (generatedCode rnd)]
              (clock w + MAXINUM_AVAILABLE_TIME) (clock w) (db w))
    as (cs & Hupsert & Hrow & _).
  rewrite (forgotPassword_run _ _ _ _ _ Hup Hfind Hupsert). unfold final at 1 3. simpl.
  match goal with |- context [verifyTokenForgotPassword data rnd' ?w1] => set (w1' := w1) end.
  assert (verifyTokenForgotPassword data rnd' w1'
          = (w1', inl (ForbiddenException "Code does not matched"))) as Hrun.
  { eapply verifyTokenForgotPassword_forbidden; [done| |].
    - unfold code_findFirst_key. simpl. rewrite Hid. exact Hrow.
    - simpl. intros Hin. by apply list_elem_of_singleton in Hin. }
  rewrite Hrun. split_and!; [done..|].
  intros earlier Hne Heq. apply Hne. unfold String_of in Heq. by simplify_eq.
Qed.

Lemma forgotPassword_supersedes_codes_witness :
  result (@verifyTokenForgotPassword Demo.collaborators
            (ForgotPasswordDto.mk "u-alice" "777777" "newpw" "a@x.com") Demo.rnd
            (advance 1000 (final (forgotPassword "a@x.com" Demo.rnd
                                    (Demo.world Demo.recovering_verified 70000)))))
  = inl (ForbiddenException "Code does not matched").
Proof.
  apply (forgotPassword_supersedes_codes (H := Demo.collaborators) "a@x.com" Demo.rnd Demo.rnd
           (Demo.world Demo.recovering_verified 70000) Demo.alice
           (ForgotPasswordDto.mk "u-alice" "777777" "newpw" "a@x.com") 1000);
    [reflexivity|reflexivity|reflexivity|by vm_compute].
Defined.

(** X9.  The round trip of a forgotten password.  The code that
    [forgotPassword] has mailed, given back to [verifyTokenForgotPassword]
    with the id of the user, is accepted however much later (no expiry is
    tested): the user's hash becomes that of the new password and the
    VERIFICATION row is deleted, so the same code given a second time
    throws NotFound. *)
Theorem forgotPassword_then_verify `{Collaborators} (email : string) (rnd rnd' rnd'' : Entropy)
    (w : World) (user : User.t) (data : ForgotPasswordDto.t) (later : Z) :
  storeDown w = false →
  user_findFirst_primaryEmail email (db w) = Some user →
  user_findUnique (User.id user) (db w) = Some user →
  ForgotPasswordDto.userId data = User.id user →
  ForgotPasswordDto.token data = String_of (generatedCode rnd) →
  result (verifyTokenForgotPassword data rnd'
            (advance later (final (forgotPassword email rnd w))))
  = inr "Change password successful"
  ∧ user_findUnique (User.id user)
      (db (final (verifyTokenForgotPassword data rnd'
                    (advance later (final (forgotPassword email rnd w))))))
    = Some (User.with_hashedPassword
              (hashing rnd' (ForgotPasswordDto.newPassword data)) user)
  ∧ code_findFirst_key VERIFICATION (User.id user)
      (db (final (verifyTokenForgotPassword data rnd'
                    (advance later (final (forgotPassword email rnd w))))))
    = None
  ∧ result (verifyTokenForgotPassword data rnd''
              (final (verifyTokenForgotPassword data rnd'
                        (advance later (final (forgotPassword email rnd w))))))
    = inl (NotFoundException "Code is not available or expired").
Proof.
  intros Hup Hfind Huser Hid Htoken.
  assert (∀ A (x : World) (r : Exception + A), final (x, r) = x) as Hfinal by done.
  destruct (code_upsert_table VERIFICATION (User.id user) [String_of (generatedCode rnd)]
              (clock w + MAXINUM_AVAILABLE_TIME) (clock w) (db w))
    as (cs & Hupsert & Hrow & _).
  rewrite (forgotPassword_run _ _ _ _ _ Hup Hfind Hupsert), Hfinal.
  match goal with |- context [verifyTokenForgotPassword data rnd' ?w1] => set (w1' := w1) end.
  assert (verifyTokenForgotPassword data rnd' w1'
          = (log (EmailSent (NotificationResetPassword (ForgotPasswordDto.email data)))
               (log (DbWrite "user.update")
                  (set_db (mkDb (users_with_password (ForgotPasswordDto.userId data)
                                   (hashing rnd' (ForgotPasswordDto.newPassword data)) (db w1'))
                                (List.filter
                                   (λ c, negb (code_has_key VERIFICATION
                                                 (ForgotPasswordDto.userId data) c))
                                   (codes (db w1')))
                                (sessions (db w1'))) w1')),
             inr "Change password successful")) as Hverify.
  { apply verifyTokenForgotPassword_success
      with (row := upserted_row VERIFICATION (User.id user) [String_of (generatedCode rnd)]
                                (clock w + MAXINUM_AVAILABLE_TIME) (clock w) (db w))
           (u := user).
    - done.
    - unfold code_findFirst_key. simpl. rewrite Hid. exact Hrow.
    - rewrite Htoken. simpl. by left.
    - by rewrite Hid. }
  rewrite Hverify, Hfinal. rewrite Hid.
  split_and!; [done| | |].
  - simpl. by apply user_findUnique_updated.
  - unfold code_findFirst_key. simpl. apply find_filter_negb.
  - unfold verifyTokenForgotPassword, result.
    erewrite run_bind; [|by apply run_prisma_read].
    unfold code_findFirst_key. simpl. by rewrite Hid, find_filter_negb.
Qed.

Lemma forgotPassword_then_verify_witness :
  result (@verifyTokenForgotPassword Demo.collaborators
            (ForgotPasswordDto.mk "u-alice" "123456" "newpw" "a@x.com") Demo.rnd
            (advance 86400000 (final (forgotPassword "a@x.com" Demo.rnd Demo.registered))))
  = inr "Change password successful".
Proof.
  apply (forgotPassword_then_verify (H := Demo.collaborators) "a@x.com" Demo.rnd Demo.rnd
           Demo.rnd Demo.registered Demo.alice
           (ForgotPasswordDto.mk "u-alice" "123456" "newpw" "a@x.com") 86400000);
    reflexivity.
Defined.

(** ** recoveryAccount: a code issued again *)

(** X10.  [recoveryAccount] on a user who has a RECOVERY row replaces the
    code and keeps the creation time of the row, from which
    [confirmRecoveryAccount] counts.  So when the user's first request is
    more than 5 minutes old (the row is never deleted), a code issued now
    is refused as expired with Unauthorized, however soon it is given
    back. *)
Theorem recoveryAccount_again_is_expired `{Collaborators} (email email' newPassword : string)
    (rnd rnd' : Entropy) (w : World) (user : User.t) (old : Code.t) (later : Z) :
  storeDown w = false →
  user_findFirst_primaryEmail email (db w) = Some user →
  code_findFirst_key RECOVERY (User.id user) (db w) = Some old →
  5 * 60000 < clock w - Code.createdAt old →
  (∀ row, row ∈ codes (db w) → String_of (generatedCode rnd) ∉ Code.tokens row) →
  0 ≤ later →
  result (recoveryAccount email rnd w) = inr "Send recovery email successful"
  ∧ code_findFirst_key RECOVERY (User.id user) (db (final (recoveryAccount email rnd w)))
    = Some (Code.mk [String_of (generatedCode rnd)] (Some (clock w + 5 * 60000)) RECOVERY
                    (User.id user) (Code.createdAt old) (Some (clock w)))
  ∧ confirmRecoveryAccount email' (String_of (generatedCode rnd)) newPassword rnd'
      (advance later (final (recoveryAccount email rnd w)))
    = (advance later (final (recoveryAccount email rnd w)),
       inl (UnauthorizedException "Code is not matched or expired")).
Proof.
  intros Hup Hfind Hold Hage Hfresh Hlater.
  assert (∀ A (x : World) (r : Exception + A), final (x, r) = x) as Hfinal by done.
  destruct (code_upsert_table RECOVERY (User.id user) [String_of (generatedCode rnd)]
              (clock w + MAXINUM_AVAILABLE_TIME) (clock w) (db w))
    as (cs & Hupsert & Hrow & _ & _ & Hholds).
  rewrite (recoveryAccount_run _ _ _ _ _ Hup Hfind Hupsert), Hfinal.
  unfold upserted_row in Hrow, Hholds. rewrite Hold in Hrow, Hholds.
  split_and!; [done|exact Hrow|].
  eapply confirmRecoveryAccount_expired; [done| |].
  - unfold code_findFirst_has. simpl. apply Hholds; [by left|done].
  - simpl. unfold MAXINUM_AVAILABLE_TIME. lia.
Qed.

Lemma recoveryAccount_again_is_expired_witness :
  @confirmRecoveryAccount Demo.collaborators "a@x.com" "123456" "newpw" Demo.rnd
    (advance 0 (final (recoveryAccount "a@x.com" Demo.rnd
                         (Demo.world
                            (mkDb [Demo.alice; Demo.bob]
                                  [Demo.code_row RECOVERY "u-alice" "555555" 5000] [])
                            900000))))
  = (advance 0 (final (recoveryAccount "a@x.com" Demo.rnd
                         (Demo.world
                            (mkDb [Demo.alice; Demo.bob]
                                  [Demo.code_row RECOVERY "u-alice" "555555" 5000] [])
                            900000))),
     inl (UnauthorizedException "Code is not matched or expired")).
Proof.
  apply (recoveryAccount_again_is_expired (H := Demo.collaborators) "a@x.com" "a@x.com" "newpw"
           Demo.rnd Demo.rnd
           (Demo.world (mkDb [Demo.alice; Demo.bob]
                             [Demo.code_row RECOVERY "u-alice" "555555" 5000] []) 900000)
           Demo.alice (Demo.code_row RECOVERY "u-alice" "555555" 5000) 0);
    [reflexivity|reflexivity|reflexivity|by vm_compute| |lia].
  intros row Hrow. apply list_elem_of_singleton in Hrow as ->.
  intros Hin. by apply list_elem_of_singleton in Hin.
Defined.

(** ** changePassword: the rejections *)

(** X11.  [changePassword] throws Unauthorized when the request carries no
    user id (before the store is asked anything), NotFound when no user has
    that id, and Unauthorized when the old password does not verify.  A
    rejected call leaves the world as it was: nothing goes to Redis, no
    hash is written, no mail is sent. *)
Theorem changePassword_rejections `{Collaborators} (data : ChangePasswordDto.t)
    (req : Request) (rnd : Entropy) (w : World) :
  (truthy (user_id req) = None →
   changePassword data req rnd w = (w, inl (UnauthorizedException "User ID is missing")))
  ∧ (∀ id, storeDown w = false →
           truthy (user_id req) = Some id →
           user_findUnique id (db w) = None →
           changePassword data req rnd w = (w, inl (NotFoundException "User not found")))
  ∧ (∀ id user, storeDown w = false →
                truthy (user_id req) = Some id →
                user_findUnique id (db w) = Some user →
                argon2_verify (User.hashedPassword user)
                              (ChangePasswordDto.oldPassword data) = false →
                changePassword data req rnd w
                = (w, inl (UnauthorizedException "Password is not matched"))).
Proof.
  split_and!.
  - intros Hid. unfold changePassword. by rewrite Hid.
  - intros id Hup Hid Huser. unfold changePassword. rewrite Hid.
    by rewrite (run_bind _ _ _ _ _ (run_prisma_read _ _ Hup)), Huser.
  - intros id user Hup Hid Huser Hverify. unfold changePassword. rewrite Hid.
    by rewrite (run_bind _ _ _ _ _ (run_prisma_read _ _ Hup)), Huser, Hverify.
Qed.

Lemma changePassword_rejections_witness :
  @changePassword Demo.collaborators (ChangePasswordDto.mk "pw1" "pw1-new")
    Demo.browser_request Demo.rnd Demo.registered
  = (Demo.registered, inl (UnauthorizedException "User ID is missing"))
  ∧ @changePassword Demo.collaborators (ChangePasswordDto.mk "pw1" "pw1-new")
      (Demo.authenticated_request "u-carol") Demo.rnd Demo.registered
    = (Demo.registered, inl (NotFoundException "User not found"))
  ∧ @changePassword Demo.collaborators (ChangePasswordDto.mk "guess" "pw1-new")
      (Demo.authenticated_request "u-alice") Demo.rnd Demo.registered
    = (Demo.registered, inl (UnauthorizedException "Password is not matched")).
Proof.
  split_and!.
  - by apply (proj1 (changePassword_rejections (H := Demo.collaborators)
                       (ChangePasswordDto.mk "pw1" "pw1-new") Demo.browser_request
                       Demo.rnd Demo.registered)).
  - by apply (proj1 (proj2 (changePassword_rejections (H := Demo.collaborators)
                              (ChangePasswordDto.mk "pw1" "pw1-new")
                              (Demo.authenticated_request "u-carol")
                              Demo.rnd Demo.registered)) "u-carol").
  - by apply (proj2 (proj2 (changePassword_rejections (H := Demo.collaborators)
                              (ChangePasswordDto.mk "guess" "pw1-new")
                              (Demo.authenticated_request "u-alice")
                              Demo.rnd Demo.registered)) "u-alice" Demo.alice).
Defined.

(** ** logout: what it leaves alone *)

(** X12.  [logout] clears the [access_token] and [refresh_token] cookies
    before anything else, so also when it goes on to throw, be it NotFound
    or a store failure. *)
Theorem logout_always_clears_cookies (req : Request) (sessionId : option string)
    (w : World) :
  ∃ rest,
    trace (final (logout req sessionId w))
    = (trace w ++ [ClearCookie "access_token"; ClearCookie "refresh_token"] ++ rest)%list.
Proof.
  unfold logout. run_service.
  destruct (storeDown w) eqn:Hup; simpl.
  { exists []. by rewrite <- app_assoc. }
  destruct (truthy (js_or sessionId (cookies_session_id req))); simpl.
  - rewrite Hup. simpl. exists [DbWrite "session.updateMany"].
    by rewrite <- !app_assoc.
  - exists []. by rewrite <- app_assoc.
Qed.

(** X13.  [logout] writes to the session table only: users, code rows and
    Redis are as before.  No row is added or removed, and a row changes only
    by being revoked, which happens to no row other than the one whose id
    is the resolved session id; a row that was revoked stays revoked. *)
Theorem logout_frame (req : Request) (sessionId : option string) (w : World) :
  users (db (final (logout req sessionId w))) = users (db w)
  ∧ codes (db (final (logout req sessionId w))) = codes (db w)
  ∧ redis (final (logout req sessionId w)) = redis w
  ∧ Forall2 (λ before after,
               (after = before
                ∨ (after = revoke before
                   ∧ resolved_session_id req sessionId = Some (Session.id before)))
               ∧ (Session.revoked before = true → Session.revoked after = true))
            (sessions (db w)) (sessions (db (final (logout req sessionId w)))).
Proof.
  assert (∀ resolved : option string,
            Forall2 (λ before after : Session.t,
                       (after = before
                        ∨ (after = revoke before ∧ resolved = Some (Session.id before)))
                       ∧ (Session.revoked before = true → Session.revoked after = true))
                    (sessions (db w)) (sessions (db w))) as Hsame.
  { intros resolved. apply Forall_Forall2_diag, Forall_forall.
    intros s _. split; [by left|done]. }
  unfold logout, resolved_session_id. run_service.
  destruct (storeDown w) eqn:Hup; simpl; [done|].
  destruct (truthy (js_or sessionId (cookies_session_id req))) as [sid|]; simpl; [|done].
  rewrite Hup. simpl. split_and!; [done..|].
  apply Forall2_fmap_r, Forall_Forall2_diag, Forall_forall. intros s _.
  unfold compose.
  destruct (session_where (Some sid)
              (Session.userId <$> session_findFirst sessionId None (db w)) s) eqn:Hwhere.
  - split; [|done]. right. split; [done|].
    unfold session_where in Hwhere. apply andb_true_iff in Hwhere as [Hid _].
    apply bool_decide_eq_true in Hid. by rewrite Hid.
  - split; [by left|done].
Qed.

(** ** registerUser: one account per primary email *)

(** X14.  [registerUser] keeps the primary emails distinct: when no two
    accounts share a primary email before the call, none do after it,
    whether it creates the account, throws Conflict or fails in the
    store. *)
Theorem registerUser_keeps_primary_emails_unique `{Collaborators} (body : RegisterUser.t)
    (rnd : Entropy) (w : World) :
  NoDup (primary_emails (db w)) →
  NoDup (primary_emails (db (final (registerUser body rnd w)))).
Proof.
  intros Hnodup. unfold registerUser, usersService_findPrimaryUserByEmail. run_service.
  destruct (storeDown w) eqn:Hup; simpl; [done|].
  destruct (user_findFirst_primaryEmail (RegisterUser.email body) (db w)) as [u|] eqn:Hfind;
    simpl; [done|].
  rewrite Hup. unfold user_create.
  destruct (existsb _ (users (db w))); simpl; [done|].
  unfold primary_emails. simpl. rewrite map_app. simpl.
  apply NoDup_app. split_and!; [done| |apply NoDup_singleton].
  intros email Hemail Hnew. apply list_elem_of_singleton in Hnew as ->.
  apply list_elem_of_fmap in Hemail as (u & Hu & Hin).
  apply list_elem_of_In in Hin.
  pose proof (List.find_none _ _ Hfind u Hin) as Hno. simpl in Hno.
  by apply bool_decide_eq_false in Hno.
Qed.

Lemma registerUser_keeps_primary_emails_unique_witness :
  NoDup (primary_emails
           (db (final (@registerUser Demo.collaborators Demo.carol_form Demo.rnd
                         Demo.registered)))).
Proof.
  apply (registerUser_keeps_primary_emails_unique (H := Demo.collaborators)
           Demo.carol_form Demo.rnd Demo.registered).
  apply (bool_decide_unpack _). by vm_compute.
Defined.

(** ** createSession *)

(** X15.  [createSession] signs the tokens for the primary email of the
    user, and for the text "undefined" when no user has the id (it does not
    reject an unknown id itself).  Whatever [storeRefreshToken] throws is
    thrown on, and then no cookie is set.  When it returns a session, three
    cookies follow in this order: [session_id] with the id of that session
    for 10 years, [refresh_token] for one hour and [access_token] for 7
    days, the last two httpOnly. *)
Theorem createSession_cookies `{Collaborators} (userId : string) (req : Request)
    (rnd : Entropy) (w w' : World) (stored : Exception + Session.t) :
  storeDown w = false →
  tokenService_storeRefreshToken userId
    (refreshToken (tokenService_generateTokens userId
                     (match user_findUnique userId (db w) with
                      | Some u => Email.value (User.primaryEmail u)
                      | None => "undefined"
                      end)))
    (cookies_session_id req)
    (getDeviceName (default "Unknown" (truthy (header_user_agent req))))
    (extractIp req)
    (default "Unknown" (truthy (header_user_agent req))) rnd w
  = (w', stored) →
  match stored with
  | inl e => createSession userId req rnd w = (w', inl e)
  | inr session =>
      result (createSession userId req rnd w)
      = inr (tokenService_generateTokens userId
               (match user_findUnique userId (db w) with
                | Some u => Email.value (User.primaryEmail u)
                | None => "undefined"
                end), session)
      ∧ db (final (createSession userId req rnd w)) = db w'
      ∧ trace (final (createSession userId req rnd w))
        = (trace w'
           ++ [SetCookie "session_id" (Session.id session) 315360000000 false;
               SetCookie "refresh_token"
                 (refreshToken (tokenService_generateTokens userId
                                  (match user_findUnique userId (db w) with
                                   | Some u => Email.value (User.primaryEmail u)
                                   | None => "undefined"
                                   end))) 3600000 true;
               SetCookie "access_token"
                 (accessToken (tokenService_generateTokens userId
                                 (match user_findUnique userId (db w) with
                                  | Some u => Email.value (User.primaryEmail u)
                                  | None => "undefined"
                                  end))) 604800000 true])%list
  end.
Proof.
  intros Hup Hstore. unfold createSession.
  rewrite (run_bind _ _ _ _ _ (run_prisma_read _ _ Hup)).
  destruct stored as [e|session].
  - by rewrite (run_bind_throw _ _ _ _ _ Hstore).
  - rewrite (run_bind _ _ _ _ _ Hstore). run_service.
    split_and!; [done..|]. by rewrite <- !app_assoc.
Qed.

Lemma createSession_cookies_witness :
  @createSession Demo.collaborators "u-alice" (Demo.returning_request "s-gone") Demo.rnd
    Demo.two_sessions
  = (Demo.two_sessions, inl (InternalError "Record to update not found"))
  ∧ trace (final (@createSession Demo.collaborators "u-alice" Demo.browser_request Demo.rnd
                    Demo.registered))
    = [DbWrite "session.create";
       SetCookie "session_id" "s-new" 315360000000 false;
       SetCookie "refresh_token" "refresh:u-alice" 3600000 true;
       SetCookie "access_token" "jwt:u-alice" 604800000 true].
Proof.
  split.
  - apply (createSession_cookies (H := Demo.collaborators) "u-alice"
             (Demo.returning_request "s-gone") Demo.rnd Demo.two_sessions Demo.two_sessions
             (inl (InternalError "Record to update not found")));
      reflexivity.
  - pose proof (createSession_cookies (H := Demo.collaborators) "u-alice"
                  Demo.browser_request Demo.rnd Demo.registered
                  (log (DbWrite "session.create")
                     (set_db (mkDb [Demo.alice; Demo.bob] []
                                   [Session.mk "s-new" None 5000 (Some 5000)
                                      (Some "$argon2id$refresh:u-alice")
                                      (Some "Firefox on Linux") (Some Demo.firefox_ua)
                                      (Some "10.0.0.7") "u-alice" false])
                        Demo.registered))
                  (inr (Session.mk "s-new" None 5000 (Some 5000)
                          (Some "$argon2id$refresh:u-alice")
                          (Some "Firefox on Linux") (Some Demo.firefox_ua)
                          (Some "10.0.0.7") "u-alice" false))
                  eq_refl eq_refl) as (_ & _ & Htrace).
    exact Htrace.
Defined.

(** ** changePassword, then login *)

Lemma user_findFirst_primaryEmail_updated id hashedPassword d u cs ss :
  User.id u = id →
  user_findFirst_primaryEmail (Email.value (User.primaryEmail u)) d = Some u →
  user_findFirst_primaryEmail (Email.value (User.primaryEmail u))
    (mkDb (users_with_password id hashedPassword d) cs ss)
  = Some (User.with_hashedPassword hashedPassword u).
Proof.
  intros Hid Hfind. unfold user_findFirst_primaryEmail, users_with_password in *. simpl.
  rewrite find_map_stable.
  - rewrite Hfind. simpl. by rewrite bool_decide_eq_true_2.
  - intros v. by destruct (bool_decide (User.id v = id)).
Qed.

(** X16.  After a [changePassword] that went through, [login] under the
    user's primary email is decided by the new hash: a password that does
    not verify against it, the old one included when that is so, is refused
    with Unauthorized. *)
Theorem changePassword_then_login `{Collaborators} (data : ChangePasswordDto.t)
    (req req' : Request) (rnd rnd' : Entropy) (w : World) (id password : string)
    (user : User.t) :
  storeDown w = false →
  truthy (user_id req) = Some id →
  user_findUnique id (db w) = Some user →
  user_findFirst_primaryEmail (Email.value (User.primaryEmail user)) (db w) = Some user →
  argon2_verify (User.hashedPassword user) (ChangePasswordDto.oldPassword data) = true →
  argon2_verify (hashing rnd (ChangePasswordDto.newPassword data)) password = false →
  result (login (LoginDto.mk (Email.value (User.primaryEmail user)) password) req' rnd'
            (final (changePassword data req rnd w)))
  = inl (UnauthorizedException "Password is not matched").
Proof.
  intros Hup Hid Huser Hfind Hold Hnew. unfold changePassword. rewrite Hid.
  rewrite (run_bind _ _ _ _ _ (run_prisma_read _ _ Hup)), Huser, Hold. simpl.
  unfold redisService_set at 1. unfold bind at 1.
  erewrite (run_bind (prisma_write _ _)).
  2: { apply run_prisma_write; [done|]. simpl. by apply user_update_password. }
  unfold login. run_service. rewrite Hup.
  rewrite (user_findFirst_primaryEmail_updated id _ (db w) user);
    [|by apply user_findUnique_id in Huser|done].
  simpl. by rewrite Hnew.
Qed.

Lemma changePassword_then_login_witness :
  result (@login Demo.collaborators (LoginDto.mk "a@x.com" "pw1") Demo.browser_request
            Demo.rnd
            (final (@changePassword Demo.collaborators
                      (ChangePasswordDto.mk "pw1" "pw1-new")
                      (Demo.authenticated_request "u-alice") Demo.rnd Demo.registered)))
  = inl (UnauthorizedException "Password is not matched").
Proof.
  apply (changePassword_then_login (H := Demo.collaborators)
           (ChangePasswordDto.mk "pw1" "pw1-new") (Demo.authenticated_request "u-alice")
           Demo.browser_request Demo.rnd Demo.rnd Demo.registered "u-alice" "pw1" Demo.alice);
    reflexivity.
Defined.

(** * Properties of the storage service *)

Lemma storage_response_eta {A} (r : Supabase.StorageResponse A) :
  Supabase.mkStorageResponse (Supabase.data r) (Supabase.error r) = r.
Proof. by destruct r. Qed.

(** X17.  [uploadFile], [downloadFile] and [deleteFile] never throw.  When
    the client is not there yet, or when its call rejects, they return
    [{ data: null, error }] with what was thrown, and hand one error line
    to the logger. *)
Theorem storage_calls_never_throw (path file : string)
    (options : option Supabase.UploadOptions) (s : Supabase.Service) :
  ((∃ r, (Supabase.uploadFile path file options s).2 = inr r)
   ∧ (∃ r, (Supabase.downloadFile path s).2 = inr r)
   ∧ (∃ r, (Supabase.deleteFile path s).2 = inr r))
  ∧ (∀ thrown,
       Supabase.awaited s (λ c, Supabase.storage_upload c Supabase.BUCKET_NAME path file options)
       = Supabase.Rejects thrown →
       Supabase.uploadFile path file options s
       = (Supabase.logged (Supabase.LoggerError "Upload exception for bucket:" thrown) s,
          inr (Supabase.mkStorageResponse None (Some thrown))))
  ∧ (∀ thrown,
       Supabase.awaited s (λ c, Supabase.storage_download c Supabase.BUCKET_NAME path)
       = Supabase.Rejects thrown →
       Supabase.downloadFile path s
       = (Supabase.logged (Supabase.LoggerError "Download exception for bucket:" thrown) s,
          inr (Supabase.mkStorageResponse None (Some thrown))))
  ∧ (∀ thrown,
       Supabase.awaited s (λ c, Supabase.storage_remove c Supabase.BUCKET_NAME [path])
       = Supabase.Rejects thrown →
       Supabase.deleteFile path s
       = (Supabase.logged (Supabase.LoggerError "Delete file exception for bucket:" thrown) s,
          inr (Supabase.mkStorageResponse None (Some thrown))))
  ∧ (Supabase.supabase s = None →
     ∀ A (call : Supabase.SupabaseClient → Supabase.Outcome A),
       Supabase.awaited s call
       = Supabase.Rejects
           (Supabase.TypeError "Cannot read properties of undefined (reading 'storage')")).
Proof.
  split_and!.
  - unfold Supabase.uploadFile. by destruct (Supabase.awaited s _); eexists.
  - unfold Supabase.downloadFile. by destruct (Supabase.awaited s _); eexists.
  - unfold Supabase.deleteFile. by destruct (Supabase.awaited s _); eexists.
  - intros thrown Hthrown. unfold Supabase.uploadFile. by rewrite Hthrown.
  - intros thrown Hthrown. unfold Supabase.downloadFile. by rewrite Hthrown.
  - intros thrown Hthrown. unfold Supabase.deleteFile. by rewrite Hthrown.
  - intros Hnone A call. unfold Supabase.awaited, Supabase.this_supabase. by rewrite Hnone.
Qed.

Lemma storage_calls_never_throw_witness :
  Supabase.uploadFile "avatars/b.png" "PNG" None Supabase.demo_service
  = (Supabase.logged
       (Supabase.LoggerError "Upload exception for bucket:"
          (Supabase.TypeError "Cannot read properties of undefined (reading 'storage')"))
       Supabase.demo_service,
     inr (Supabase.mkStorageResponse None
            (Some (Supabase.TypeError
                     "Cannot read properties of undefined (reading 'storage')")))).
Proof.
  apply (proj1 (proj2 (storage_calls_never_throw "avatars/b.png" "PNG" None
                         Supabase.demo_service))).
  by apply (proj2 (proj2 (proj2 (proj2 (storage_calls_never_throw "avatars/b.png" "PNG" None
                                          Supabase.demo_service))))).
Defined.

(** X18.  With a client in place whose call resolves, the three methods
    return the [{ data, error }] of the client as it is, for the bucket
    [cdn] (and, for [deleteFile], the one path); an [error] in it is logged
    as an error and never thrown, and a success is logged by [uploadFile]
    and [deleteFile] and not by [downloadFile]. *)
Theorem storage_calls_pass_through (path file : string)
    (options : option Supabase.UploadOptions) (s : Supabase.Service)
    (client : Supabase.SupabaseClient) :
  Supabase.supabase s = Some client →
  (∀ r, Supabase.storage_upload client "cdn" path file options = Supabase.Resolves r →
        Supabase.uploadFile path file options s
        = (Supabase.logged
             (match Supabase.error r with
              | Some e => Supabase.LoggerError "Upload error for bucket:" e
              | None => Supabase.LoggerLog ("File uploaded successfully to " ++ path)
              end) s, inr r))
  ∧ (∀ r, Supabase.storage_download client "cdn" path = Supabase.Resolves r →
          Supabase.downloadFile path s
          = (match Supabase.error r with
             | Some e => Supabase.logged (Supabase.LoggerError "Download error for bucket:" e) s
             | None => s
             end, inr r))
  ∧ (∀ r, Supabase.storage_remove client "cdn" [path] = Supabase.Resolves r →
          Supabase.deleteFile path s
          = (Supabase.logged
               (match Supabase.error r with
                | Some e => Supabase.LoggerError "Delete file error for bucket:" e
                | None => Supabase.LoggerLog ("File deleted successfully from/" ++ path)
                end) s, inr r)).
Proof.
  intros Hclient. split_and!; intros r Hcall.
  - unfold Supabase.uploadFile, Supabase.awaited, Supabase.this_supabase.
    rewrite Hclient. unfold Supabase.BUCKET_NAME. rewrite Hcall, storage_response_eta.
    by destruct (Supabase.error r).
  - unfold Supabase.downloadFile, Supabase.awaited, Supabase.this_supabase.
    rewrite Hclient. unfold Supabase.BUCKET_NAME. by rewrite Hcall, storage_response_eta.
  - unfold Supabase.deleteFile, Supabase.awaited, Supabase.this_supabase.
    rewrite Hclient. unfold Supabase.BUCKET_NAME. rewrite Hcall, storage_response_eta.
    by destruct (Supabase.error r).
Qed.

Lemma storage_calls_pass_through_witness :
  (Supabase.uploadFile "avatars/a.png" "PNG" None
     (Supabase.onModuleInit Supabase.demo_createClient Supabase.demo_service).1).2
  = inr (Supabase.mkStorageResponse None
           (Some (Supabase.StorageError "The resource already exists"))).
Proof.
  by rewrite (proj1 (storage_calls_pass_through "avatars/a.png" "PNG" None
                       (Supabase.onModuleInit Supabase.demo_createClient
                          Supabase.demo_service).1
                       Supabase.demo_client eq_refl)
                    (Supabase.mkStorageResponse None
                       (Some (Supabase.StorageError "The resource already exists")))
                    eq_refl).
Defined.

(** X19.  The life of the service.  The constructor throws when the project
    URL or, after it, the API key is not configured.  The service it builds
    has no client: [isInitialized] is false and [getPublicUrl], which has
    no [try], throws.  [onModuleInit] puts the client that [createClient]
    returns in place, after which [getPublicUrl] answers with the client's
    URL for the bucket [cdn]; when [createClient] throws, [onModuleInit]
    logs, throws the same error and the service stays without a client. *)
Theorem storage_service_lifecycle
    (createClient : string → string → Supabase.AuthOptions
                    → Supabase.JsError + Supabase.SupabaseClient)
    (env : gmap string string) :
  (env !! "SUPABASE_PROJECT_URL" = None →
   ∃ message, Supabase.constructor env = inl (Supabase.TypeError message))
  ∧ (env !! "SUPABASE_PROJECT_API_KEY" = None →
     ∃ message, Supabase.constructor env = inl (Supabase.TypeError message))
  ∧ (∀ url key,
       env !! "SUPABASE_PROJECT_URL" = Some url →
       env !! "SUPABASE_PROJECT_API_KEY" = Some key →
       ∃ s,
         Supabase.constructor env = inr s
         ∧ Supabase.isInitialized s = false
         ∧ (∀ path, ∃ message,
              Supabase.getPublicUrl path s = (s, inl (Supabase.TypeError message)))
         ∧ (∀ client,
              createClient url key (Supabase.mkAuthOptions true true true) = inr client →
              (Supabase.onModuleInit createClient s).2 = inr tt
              ∧ Supabase.isInitialized (Supabase.onModuleInit createClient s).1 = true
              ∧ Supabase.getClient (Supabase.onModuleInit createClient s).1 = Some client
              ∧ ∀ path,
                  (Supabase.getPublicUrl path (Supabase.onModuleInit createClient s).1).2
                  = inr (Supabase.storage_getPublicUrl client "cdn" path))
         ∧ (∀ thrown,
              createClient url key (Supabase.mkAuthOptions true true true) = inl thrown →
              (Supabase.onModuleInit createClient s).2 = inl thrown
              ∧ Supabase.isInitialized (Supabase.onModuleInit createClient s).1 = false
              ∧ Supabase.logger (Supabase.onModuleInit createClient s).1
                = [Supabase.LoggerError "Failed to initialize Supabase client" thrown])).
Proof.
  unfold Supabase.constructor, Supabase.getOrThrow. split_and!.
  - intros ->. by eexists.
  - intros ->. destruct (env !! "SUPABASE_PROJECT_URL"); by eexists.
  - intros url key -> ->. eexists. split; [done|]. split; [done|]. split_and!.
    + intros path. by eexists.
    + intros client Hclient. unfold Supabase.onModuleInit. simpl. by rewrite Hclient.
    + intros thrown Hthrown. unfold Supabase.onModuleInit. simpl. by rewrite Hthrown.
Qed.

Lemma storage_service_lifecycle_witness :
  ∃ s,
    Supabase.constructor Supabase.demo_env = inr s
    ∧ Supabase.isInitialized s = false
    ∧ Supabase.isInitialized (Supabase.onModuleInit Supabase.demo_createClient s).1 = true.
Proof.
  destruct (proj2 (proj2 (storage_service_lifecycle Supabase.demo_createClient
                            Supabase.demo_env))
                  "https://project.supabase.co" "anon-key" eq_refl eq_refl)
    as (s & Hs & Hfresh & _ & Hinit & _).
  exists s. split_and!; [done..|].
  by apply (Hinit Supabase.demo_client).
Defined.

(** * Across the two flows *)

(** X20.  A code that [forgotPassword] has issued also passes
    [confirmRecoveryAccount], which looks codes up whatever their type: for
    a user without an earlier VERIFICATION row, given back between one and
    five minutes after it was issued, whatever the [email] argument, the
    call succeeds, the user's hash becomes that of the new password and the
    VERIFICATION row is deleted. *)
Theorem forgotPassword_then_confirmRecoveryAccount `{Collaborators}
    (email email' newPassword : string) (rnd rnd' : Entropy) (w : World) (user : User.t)
    (later : Z) :
  storeDown w = false →
  user_findFirst_primaryEmail email (db w) = Some user →
  user_findUnique (User.id user) (db w) = Some user →
  code_findFirst_key VERIFICATION (User.id user) (db w) = None →
  (∀ row, row ∈ codes (db w) → String_of (generatedCode rnd) ∉ Code.tokens row) →
  60000 ≤ later ≤ 5 * 60000 →
  result (confirmRecoveryAccount email' (String_of (generatedCode rnd)) newPassword rnd'
            (advance later (final (forgotPassword email rnd w))))
  = inr "Send notification recovery email successful"
  ∧ user_findUnique (User.id user)
      (db (final (confirmRecoveryAccount email' (String_of (generatedCode rnd)) newPassword rnd'
                    (advance later (final (forgotPassword email rnd w))))))
    = Some (User.with_hashedPassword (hashing rnd' newPassword) user)
  ∧ code_findFirst_key VERIFICATION (User.id user)
      (db (final (confirmRecoveryAccount email' (String_of (generatedCode rnd)) newPassword rnd'
                    (advance later (final (forgotPassword email rnd w))))))
    = None.
Proof.
  intros Hup Hfind Huser Hnone Hfresh Hlater.
  assert (∀ A (x : World) (r : Exception + A), final (x, r) = x) as Hfinal by done.
  destruct (code_upsert_table VERIFICATION (User.id user) [String_of (generatedCode rnd)]
              (clock w + MAXINUM_AVAILABLE_TIME) (clock w) (db w))
    as (cs & Hupsert & Hrow & _ & _ & Hholds).
  rewrite (forgotPassword_run _ _ _ _ _ Hup Hfind Hupsert), Hfinal.
  unfold upserted_row in Hrow, Hholds. rewrite Hnone in Hrow, Hholds.
  match goal with |- context [confirmRecoveryAccount _ _ _ _ ?w1] => set (w1' := w1) end.
  rewrite (confirmRecoveryAccount_success email' (String_of (generatedCode rnd)) newPassword
             rnd' w1'
             (Code.mk [String_of (generatedCode rnd)] (Some (clock w + MAXINUM_AVAILABLE_TIME))
                      VERIFICATION (User.id user) (clock w) (Some (clock w)))
             user
             (upserted_row VERIFICATION (User.id user) [String_of (generatedCode rnd)]
                           (clock w + MAXINUM_AVAILABLE_TIME) (clock w) (db w))).
  - rewrite Hfinal. unfold result. simpl. split_and!; [done| |].
    + by apply user_findUnique_updated.
    + unfold code_findFirst_key. simpl. apply find_filter_negb.
  - done.
  - unfold code_findFirst_has. simpl. apply Hholds; [by left|done].
  - simpl. unfold MIN_TIME_TO_REQUEST, MAXINUM_AVAILABLE_TIME. lia.
  - done.
  - unfold code_findFirst_key, upserted_row, code_findFirst_key. simpl.
    fold (code_findFirst_key VERIFICATION (User.id user) (db w)). rewrite Hnone.
    exact Hrow.
Qed.

Lemma forgotPassword_then_confirmRecoveryAccount_witness :
  result (@confirmRecoveryAccount Demo.collaborators "mallory@evil.example" "123456" "newpw"
            Demo.rnd (advance 90000 (final (forgotPassword "a@x.com" Demo.rnd Demo.registered))))
  = inr "Send notification recovery email successful".
Proof.
  apply (forgotPassword_then_confirmRecoveryAccount (H := Demo.collaborators)
           "a@x.com" "mallory@evil.example" "newpw" Demo.rnd Demo.rnd Demo.registered
           Demo.alice 90000);
    [reflexivity|reflexivity|reflexivity|reflexivity| |lia].
  intros row Hrow. by apply elem_of_nil in Hrow.
Defined.
